(** * web3/_utils/contracts.py: ABI entry resolution, call-data encoding and
      transaction assembly.

    The development embeds the functions of [web3/_utils/contracts.py] as Rocq
    functions.  Python exceptions become the [Raise] branch of [result];
    the dictionaries the code allocates and mutates live in an explicit
    heap, and the calls into the binary codec are recorded in a log, both
    threaded through the state-and-exception monad [M]. *)

From Stdlib Require Import ZArith String Ascii List Lia Permutation.
From Stdlib.Strings Require Import Byte.
From stdpp Require Import base tactics option list gmap strings pretty fin_maps.

Local Open Scope string_scope.
Local Open Scope Z_scope.

(** ** Python values and exceptions *)

(** The runtime values the code passes around without inspecting them, apart
    from truthiness and the comparison of a transaction's value with zero. *)
Inductive pyval :=
  | PNone
  | PBool (b : bool)
  | PInt (z : Z)
  | PStr (s : string)
  | PBytes (bs : list byte).

(** [v != 0] as Python evaluates it: booleans are integers, every value of
    another type differs from an integer. *)
Definition py_ne_zero (v : pyval) : bool :=
  match v with
  | PInt z => negb (z =? 0)
  | PBool b => b
  | _ => true
  end.

(** The exceptions of the module.  [External] stands for an exception that
    leaves one of the collaborators (the binary codec, a normalizer); the
    other constructors are the classes raised by the code embedded here. *)
Inductive exn :=
  | TypeError (msg : string)
  | ValueError (msg : string)
  | ValidationError (msg : string)
  | FallbackNotFound (msg : string)
  | UnboundLocalError (var : string)
  | KeyError (key : string)
  | External (cls msg : string).

Inductive result (A : Type) :=
  | Ok (a : A)
  | Raise (e : exn).
Arguments Ok {A} a.
Arguments Raise {A} e.

#[global] Instance result_ret : MRet result := @Ok.
#[global] Instance result_bind : MBind result :=
  fun A B f r => match r with Ok a => f a | Raise e => Raise e end.

(** ** Hex strings (eth_utils, hexbytes) *)

Definition hex_digit (n : N) : ascii :=
  match n with
  | 0 => "0" | 1 => "1" | 2 => "2" | 3 => "3" | 4 => "4" | 5 => "5"
  | 6 => "6" | 7 => "7" | 8 => "8" | 9 => "9" | 10 => "a" | 11 => "b"
  | 12 => "c" | 13 => "d" | 14 => "e" | _ => "f"
  end%N%char.

Definition unhex_digit (c : ascii) : option N :=
  let n := N_of_ascii c in
  if ((48 <=? n) && (n <=? 57))%N then Some (n - 48)%N
  else if ((97 <=? n) && (n <=? 102))%N then Some (n - 87)%N
  else if ((65 <=? n) && (n <=? 70))%N then Some (n - 55)%N
  else None.

(** [binascii.hexlify]: two lower-case digits per byte. *)
Fixpoint hexlify (bs : list byte) : string :=
  match bs with
  | [] => ""
  | b :: rest =>
      String (hex_digit (N.shiftr (Byte.to_N b) 4))
        (String (hex_digit (N.land (Byte.to_N b) 15)) (hexlify rest))
  end.

Definition byte_of_nibbles (hi lo : N) : byte :=
  default x00 (Byte.of_N (16 * hi + lo)).

(** [binascii.unhexlify]: fails on an odd length or on a character that is
    not a hex digit. *)
Fixpoint unhexlify (s : string) : option (list byte) :=
  match s with
  | "" => Some []
  | String _ "" => None
  | String c1 (String c2 rest) =>
      hi ← unhex_digit c1;
      lo ← unhex_digit c2;
      bs ← unhexlify rest;
      Some (byte_of_nibbles hi lo :: bs)
  end.

(** Modelled from the spec: [eth_utils.encode_hex], not under src/; the hex
    encoding of a byte string with a leading [0x]. *)
Definition encode_hex (bs : list byte) : string := "0x" +:+ hexlify bs.

Definition is_0x_prefixed (s : string) : bool :=
  match s with
  | String "0" (String "x" _) | String "0" (String "X" _) => true
  | _ => false
  end.

(** Modelled from the spec: [eth_utils.add_0x_prefix], not under src/. *)
Definition add_0x_prefix (s : string) : string :=
  if is_0x_prefixed s then s else "0x" +:+ s.

Definition remove_0x_prefix (s : string) : string :=
  match s with
  | String "0" (String "x" r) | String "0" (String "X" r) => r
  | _ => s
  end.

(** Modelled from the spec: [hexbytes.HexBytes] applied to a hex string, not
    under src/: the prefix is dropped, a string of odd length is padded
    with one zero digit on the left, then the digits are decoded. *)
Definition HexBytes (data : string) : result (list byte) :=
  let non_prefixed := remove_0x_prefix data in
  let padded :=
    if Nat.odd (String.length data) then "0" +:+ non_prefixed
    else non_prefixed in
  match unhexlify padded with
  | Some bs => Ok bs
  | None => Raise (ValueError "Non-hexadecimal digit found")
  end.

(** Modelled from the spec: [web3._utils.encoding.to_hex] on a byte string,
    not under src/. *)
Definition to_hex (bs : list byte) : string := encode_hex bs.

(** ** ABI model *)

Inductive abi_kind := KFunction | KEvent | KFallback | KReceive.

#[global] Instance abi_kind_eq_dec : EqDecision abi_kind.
Proof. solve_decision. Defined.

(** One declared parameter: its name (empty when the parameter is unnamed),
    its canonical type string and, for events, the indexed flag. *)
Record ABIInput := {
  input_name : string;
  input_type : string;
  input_indexed : bool
}.

(** An ABI entry.  [abi_name] is [None] for the fallback and receive
    entries; [abi_payable] is [None] when the entry has no ["payable"]
    key. *)
Record ABIElement := {
  abi_type : abi_kind;
  abi_name : option string;
  abi_inputs : list ABIInput;
  abi_payable : option bool
}.

#[global] Instance ABIInput_eq_dec : EqDecision ABIInput.
Proof. solve_decision. Defined.
#[global] Instance ABIElement_eq_dec : EqDecision ABIElement.
Proof. solve_decision. Defined.

Abbreviation ABI := (list ABIElement).

(** The identifier of an invocation: a name, one of the two marker classes,
    or any other object. *)
Inductive fn_id :=
  | FnName (name : string)
  | FallbackFn
  | ReceiveFn
  | FnOther.

(** ** Collaborators *)

(** What a call into a collaborator gives back: a value, or an exception of
    the collaborator's own. *)
Inductive external (A : Type) :=
  | Returned (a : A)
  | Failed (cls msg : string).
Arguments Returned {A} a.
Arguments Failed {A} cls msg.

#[global] Instance external_ret : MRet external := @Returned.
#[global] Instance external_bind : MBind external :=
  fun A B f r => match r with Returned a => f a | Failed c m => Failed c m end.

Definition from_external {A} (r : external A) : result A :=
  match r with Returned a => Ok a | Failed c m => Raise (External c m) end.

(** The binary codec ([eth_abi.codec.ABICodec]). *)
Record ABICodec := {
  is_encodable : string -> pyval -> bool;
  codec_encode_abi : list string -> list pyval -> external (list byte)
}.

(** A normalizer maps a declared type and a value to a type and a value. *)
Abbreviation Normalizer := (string -> pyval -> external (string * pyval)).

(** The [Web3] object, as far as this module uses it: its codec, and the
    normalizer [abi_ens_resolver(w3)] builds from its name service. *)
Record Web3 := {
  codec : ABICodec;
  abi_ens_resolver : Normalizer
}.

(** The functions imported from [eth_utils] and [web3._utils.normalizers]
    whose code is not part of this module: the 256-bit hash and the three
    normalizers that need no [Web3] object. *)
Class Collaborators := {
  keccak : list byte -> list byte;
  abi_address_to_hex : Normalizer;
  abi_bytes_to_bytes : Normalizer;
  abi_string_to_text : Normalizer
}.

(** ** Filters and helpers of [web3._utils.abi] *)

(** [toolz.pipe]: the value threaded through the functions, left to right. *)
Definition pipe {A} (x : A) (fs : list (A -> A)) : A :=
  foldl (fun acc f => f acc) x fs.

(** Modelled from the spec: [filter_by_type] of [web3/_utils/abi.py], not
    under src/: the entries of the given kind, in order. *)
Definition filter_by_type (kind : abi_kind) (contract_abi : ABI) : ABI :=
  filter (fun e => abi_type e = kind) contract_abi.

(** Modelled from the spec: [filter_by_name] of [web3/_utils/abi.py], not
    under src/: the entries whose name is exactly the given one. *)
Definition filter_by_name (name : string) (contract_abi : ABI) : ABI :=
  filter (fun e => abi_name e = Some name) contract_abi.

(** Modelled from the spec: [filter_by_argument_count] of
    [web3/_utils/abi.py], not under src/: the entries with exactly that
    many inputs. *)
Definition filter_by_argument_count (num_arguments : nat)
    (contract_abi : ABI) : ABI :=
  filter (fun e => length (abi_inputs e) = num_arguments) contract_abi.

Definition get_abi_input_names (abi : ABIElement) : list string :=
  input_name <$> abi_inputs abi.

(** Modelled from the spec: [get_abi_input_types] of [web3/_utils/abi.py],
    not under src/: the ordered declared input types of the entry. *)
Definition get_abi_input_types (abi : ABIElement) : list string :=
  input_type <$> abi_inputs abi.

(** Modelled from the spec: [filter_by_argument_name] of
    [web3/_utils/abi.py], not under src/: the entries whose parameter names
    include every provided name. *)
Definition filter_by_argument_name (argument_names : list string)
    (contract_abi : ABI) : ABI :=
  filter (fun e => Forall (fun n => n ∈ get_abi_input_names e) argument_names)
    contract_abi.

(** Modelled from the spec: [merge_args_and_kwargs] of [web3/_utils/abi.py],
    not under src/.  The positional and named arguments together must be as
    many as the entry has inputs; the positional ones take the first
    parameters, no named key may repeat one of those or name an undeclared
    parameter, and the remaining parameters are filled by name, in declared
    order. *)
Definition merge_args_and_kwargs (function_abi : ABIElement)
    (args : list pyval) (kwargs : gmap string pyval) : result (list pyval) :=
  let names := get_abi_input_names function_abi in
  if negb (length args + size kwargs =? length names)%nat then
    Raise (TypeError "Incorrect argument count.")
  else if bool_decide (kwargs = ∅) then Ok args
  else if bool_decide
            (Exists (fun n => is_Some (kwargs !! n)) (take (length args) names))
  then Raise (TypeError "got multiple values for argument(s)")
  else if negb (bool_decide
            (Forall (fun k => k ∈ names) (elements (dom kwargs))))
  then Raise (TypeError "got unexpected keyword argument(s)")
  else
    match mapM (fun n => kwargs !! n) (drop (length args) names) with
    | Some named => Ok (args ++ named)%list
    | None => Raise (TypeError "missing argument(s)")
    end.

(** Modelled from the spec: [get_aligned_abi_inputs] of [web3/_utils/abi.py],
    not under src/: the declared types, and the argument values in declared
    parameter order. *)
Definition get_aligned_abi_inputs (abi : ABIElement) (args : list pyval)
    : list string * list pyval :=
  (get_abi_input_types abi, args).

(** Modelled from the spec: [check_if_arguments_can_be_encoded] of
    [web3/_utils/abi.py], not under src/: the arguments merge against the
    entry, are as many as its inputs, and the codec accepts each value at
    the declared type of its position. *)
Definition check_if_arguments_can_be_encoded (function_abi : ABIElement)
    (abi_codec : ABICodec) (args : list pyval) (kwargs : gmap string pyval)
    : bool :=
  match merge_args_and_kwargs function_abi args kwargs with
  | Raise _ => false
  | Ok arguments =>
      if negb (length (abi_inputs function_abi) =? length arguments)%nat
      then false
      else
        let '(types, aligned_args) :=
          get_aligned_abi_inputs function_abi arguments in
        forallb (fun ta => is_encodable abi_codec ta.1 ta.2)
          (zip types aligned_args)
  end.

(** Modelled from the spec: [filter_by_encodability] of
    [web3/_utils/abi.py], not under src/. *)
Definition filter_by_encodability (abi_codec : ABICodec) (args : list pyval)
    (kwargs : gmap string pyval) (contract_abi : ABI) : ABI :=
  filter
    (fun e => check_if_arguments_can_be_encoded e abi_codec args kwargs = true)
    contract_abi.

(** Modelled from the spec: [abi_to_signature] of [web3/_utils/abi.py], not
    under src/: the name, then the comma-joined parameter types in
    parentheses. *)
Definition abi_to_signature (abi : ABIElement) : string :=
  default "" (abi_name abi) +:+ "("
    +:+ String.concat "," (get_abi_input_types abi) +:+ ")".

Definition iter_abi (contract_abi : option ABI) : result ABI :=
  match contract_abi with
  | Some abi => Ok abi
  | None => Raise (TypeError "'NoneType' object is not iterable")
  end.

(** Modelled from the spec: [get_fallback_func_abi] of [web3/_utils/abi.py],
    not under src/: the fallback entry of the ABI, an error when the ABI
    declares none. *)
Definition get_fallback_func_abi (contract_abi : option ABI)
    : result ABIElement :=
  abi ← iter_abi contract_abi;
  match filter_by_type KFallback abi with
  | e :: _ => Ok e
  | [] => Raise (FallbackNotFound
                   "No fallback function was found in the contract ABI.")
  end.

(** Modelled from the spec: [get_receive_func_abi] of [web3/_utils/abi.py],
    not under src/: the receive entry of the ABI, an error when the ABI
    declares none. *)
Definition get_receive_func_abi (contract_abi : option ABI)
    : result ABIElement :=
  abi ← iter_abi contract_abi;
  match filter_by_type KReceive abi with
  | e :: _ => Ok e
  | [] => Raise (FallbackNotFound
                   "No receive function was found in the contract ABI.")
  end.

(** ** Resolution of an ABI entry *)

Definition find_matching_event_abi (abi : ABI) (event_name : option string)
    (argument_names : option (list string)) : result ABIElement :=
  let filters := [filter_by_type KEvent] in
  let filters :=
    match event_name with
    | Some name => (filters ++ [filter_by_name name])%list
    | None => filters
    end in
  let filters :=
    match argument_names with
    | Some names => (filters ++ [filter_by_argument_name names])%list
    | None => filters
    end in
  let event_abi_candidates := pipe abi filters in
  match event_abi_candidates with
  | [e] => Ok e
  | [] => Raise (ValueError "No matching events found")
  | _ => Raise (ValueError "Multiple events found")
  end.

(** The three diagnoses of a failed function lookup. *)
Definition diagnosis_arg_count : string :=
  String "010"
    "Function invocation failed due to improper number of arguments.".
Definition diagnosis_arg_types : string :=
  String "010"
    "Function invocation failed due to no matching argument types.".
Definition diagnosis_ambiguous : string :=
  String "010" ("Ambiguous argument encoding. " +:+
    "Provided arguments can be encoded to multiple functions matching this call.").

Definition py_type_repr (v : pyval) : string :=
  match v with
  | PNone => "<class 'NoneType'>"
  | PBool _ => "<class 'bool'>"
  | PInt _ => "<class 'int'>"
  | PStr _ => "<class 'str'>"
  | PBytes _ => "<class 'bytes'>"
  end.

Definition py_tuple_repr (items : list string) : string :=
  match items with
  | [] => "()"
  | [x] => "(" +:+ x +:+ ",)"
  | _ => "(" +:+ String.concat ", " items +:+ ")"
  end.

Definition py_quote (s : string) : string := "'" +:+ s +:+ "'".

(** The message of the error a failed function lookup raises.  The named
    arguments are listed in the order of the finite map, which need not be
    the order in which the caller's dictionary was filled. *)
Definition fn_mismatch_message (fn_identifier : string) (args : list pyval)
    (kwargs : gmap string pyval) (matching_identifiers : ABI)
    (matching_function_signatures : list string) (diagnosis : string)
    : string :=
  String "010" "Could not identify the intended function with name `"
  +:+ fn_identifier +:+ "`, positional argument(s) of type `"
  +:+ py_tuple_repr (py_type_repr <$> args)
  +:+ "` and keyword argument(s) of type `{"
  +:+ String.concat ", "
        ((fun kv => py_quote kv.1 +:+ ": " +:+ py_type_repr kv.2)
           <$> map_to_list kwargs)
  +:+ "}`." +:+ String "010" "Found "
  +:+ pretty (length matching_identifiers)
  +:+ " function(s) with the name `" +:+ fn_identifier +:+ "`: ["
  +:+ String.concat ", " (py_quote <$> matching_function_signatures)
  +:+ "]" +:+ diagnosis.

Definition find_matching_fn_abi (abi : option ABI) (abi_codec : ABICodec)
    (fn_identifier : fn_id) (args : option (list pyval))
    (kwargs : option (gmap string pyval)) : result ABIElement :=
  let args := default [] args in
  let kwargs := default ∅ kwargs in
  let num_arguments := (length args + size kwargs)%nat in
  match fn_identifier with
  | FallbackFn => get_fallback_func_abi abi
  | ReceiveFn => get_receive_func_abi abi
  | FnOther => Raise (TypeError "Unsupported function identifier")
  | FnName fn_identifier =>
      let name_filter := filter_by_name fn_identifier in
      let arg_count_filter := filter_by_argument_count num_arguments in
      let encoding_filter := filter_by_encodability abi_codec args kwargs in
      abi ← iter_abi abi;
      let function_candidates :=
        pipe abi [name_filter; arg_count_filter; encoding_filter] in
      match function_candidates with
      | [e] => Ok e
      | _ =>
          let matching_identifiers := name_filter abi in
          let matching_function_signatures :=
            abi_to_signature <$> matching_identifiers in
          let arg_count_matches :=
            length (arg_count_filter matching_identifiers) in
          let encoding_matches :=
            length (encoding_filter matching_identifiers) in
          let diagnosis :=
            if (arg_count_matches =? 0)%nat then Some diagnosis_arg_count
            else if (encoding_matches =? 0)%nat then Some diagnosis_arg_types
            else if (1 <? encoding_matches)%nat then Some diagnosis_ambiguous
            else None in
          match diagnosis with
          | Some diagnosis =>
              Raise (ValidationError
                       (fn_mismatch_message fn_identifier args kwargs
                          matching_identifiers matching_function_signatures
                          diagnosis))
          | None => Raise (UnboundLocalError "diagnosis")
          end
      end
  end.

(** ** The heap and the log of codec calls *)

Abbreviation loc := positive.

(** A call that leaves this module for the normalizers or the codec. *)
Inductive codec_call :=
  | CallNormalize (types : list string) (data : list pyval)
  | CallEncode (types : list string) (data : list pyval).

(** The state of a run: the dictionaries allocated so far, and the calls
    made to the collaborators, oldest first. *)
Record world := {
  heap : gmap loc (gmap string pyval);
  calls : list codec_call
}.

Definition M (A : Type) : Type := world -> result A * world.

#[global] Instance M_ret : MRet M := fun A a w => (Ok a, w).
#[global] Instance M_bind : MBind M :=
  fun A B f m w =>
    match m w with
    | (Ok a, w') => f a w'
    | (Raise e, w') => (Raise e, w')
    end.

Definition lift {A} (r : result A) : M A := fun w => (r, w).
Definition raise {A} (e : exn) : M A := fun w => (Raise e, w).

Definition log_call (c : codec_call) : M unit :=
  fun w => (Ok tt, {| heap := heap w; calls := (calls w ++ [c])%list |}).

(** A new dictionary with the given content: the copy of a dictionary, or
    the empty dictionary literal. *)
Definition py_dict_new (d : gmap string pyval) : M loc :=
  fun w =>
    let l := fresh (dom (heap w)) in
    (Ok l, {| heap := <[l := d]> (heap w); calls := calls w |}).

Definition py_dict_read (l : loc) : M (gmap string pyval) :=
  fun w => (Ok (default ∅ (heap w !! l)), w).

Definition py_dict_update (l : loc)
    (f : gmap string pyval -> gmap string pyval) : M unit :=
  fun w =>
    (Ok tt, {| heap := <[l := f (default ∅ (heap w !! l))]> (heap w);
               calls := calls w |}).

(** [d.setdefault(k, v)], its result dropped. *)
Definition py_dict_setdefault (l : loc) (k : string) (v : pyval) : M unit :=
  py_dict_update l (fun d => match d !! k with Some _ => d | None => <[k := v]> d end).

(** [d[k] = v]. *)
Definition py_dict_setitem (l : loc) (k : string) (v : pyval) : M unit :=
  py_dict_update l (fun d => <[k := v]> d).

Definition py_dict_contains (l : loc) (k : string) : M bool :=
  d ← py_dict_read l; mret (bool_decide (is_Some (d !! k))).

(** ** Encoding and assembly *)

Section Encoding.
Context `{Collaborators}.

Definition apply_normalizer (normalizer : Normalizer)
    (typed : list (string * pyval)) : external (list (string * pyval)) :=
  mapM (fun tv => normalizer tv.1 tv.2) typed.

(** Modelled from the spec: [map_abi_data] of [web3/_utils/abi.py], not under
    src/: the ordered chain of normalizers, each applied positionally to the
    values paired with their declared types. *)
Definition map_abi_data (normalizers : list Normalizer) (types : list string)
    (data : list pyval) : external (list pyval) :=
  typed ← foldl (fun acc normalizer => acc ≫= apply_normalizer normalizer)
            (Returned (zip types data)) normalizers;
  mret (snd <$> typed).

Definition remove_spaces (s : string) : string :=
  string_of_list_ascii
    (List.filter (fun c => negb (Ascii.eqb c " ")) (list_ascii_of_string s)).

(** Modelled from the spec: [function_abi_to_4byte_selector] of [eth_utils],
    not under src/: the first 4 bytes of the hash of the canonical
    signature, the name followed by the comma-joined parameter types in
    parentheses, spaces removed. *)
Definition function_abi_to_4byte_selector (abi : ABIElement)
    : result (list byte) :=
  match abi_name abi with
  | None => Raise (KeyError "name")
  | Some name =>
      let function_signature :=
        name +:+ "(" +:+ String.concat "," (get_abi_input_types abi) +:+ ")" in
      Ok (take 4 (keccak (list_byte_of_string (remove_spaces function_signature))))
  end.

Definition not_encodable_message (argument_types : list string) : string :=
  "One or more arguments could not be encoded to the necessary "
  +:+ "ABI type.  Expected types are: " +:+ String.concat ", " argument_types.

Definition encode_abi (w3 : Web3) (abi : ABIElement) (arguments : list pyval)
    (data : option string) : M string :=
  let argument_types := get_abi_input_types abi in
  if negb (check_if_arguments_can_be_encoded abi (codec w3) arguments ∅) then
    raise (TypeError (not_encodable_message argument_types))
  else
    let normalizers :=
      [abi_ens_resolver w3; abi_address_to_hex; abi_bytes_to_bytes;
       abi_string_to_text] in
    log_call (CallNormalize argument_types arguments);;
    normalized_arguments ←
      lift (from_external (map_abi_data normalizers argument_types arguments));
    log_call (CallEncode argument_types normalized_arguments);;
    encoded_arguments ←
      lift (from_external
              (codec_encode_abi (codec w3) argument_types normalized_arguments));
    match data with
    | Some (String c rest as data) =>
        prefix ← lift (HexBytes data);
        mret (to_hex (prefix ++ encoded_arguments)%list)
    | _ => mret (encode_hex encoded_arguments)
    end.

Definition get_fallback_function_info (contract_abi : option ABI)
    (fn_abi : option ABIElement)
    : result (ABIElement * string * list pyval) :=
  fn_abi ← match fn_abi with
            | None => get_fallback_func_abi contract_abi
            | Some fn_abi => Ok fn_abi
            end;
  let fn_selector := encode_hex [] in
  let fn_arguments : list pyval := [] in
  Ok (fn_abi, fn_selector, fn_arguments).

Definition get_receive_function_info (contract_abi : option ABI)
    (fn_abi : option ABIElement)
    : result (ABIElement * string * list pyval) :=
  fn_abi ← match fn_abi with
            | None => get_receive_func_abi contract_abi
            | Some fn_abi => Ok fn_abi
            end;
  let fn_selector := encode_hex [] in
  let fn_arguments : list pyval := [] in
  Ok (fn_abi, fn_selector, fn_arguments).

Definition get_function_info (fn_name : string) (abi_codec : ABICodec)
    (contract_abi : option ABI) (fn_abi : option ABIElement)
    (args : option (list pyval)) (kwargs : option (gmap string pyval))
    : result (ABIElement * string * list pyval) :=
  let args := default [] args in
  let kwargs := default ∅ kwargs in
  fn_abi ← match fn_abi with
            | None =>
                find_matching_fn_abi contract_abi abi_codec (FnName fn_name)
                  (Some args) (Some kwargs)
            | Some fn_abi => Ok fn_abi
            end;
  selector ← function_abi_to_4byte_selector fn_abi;
  let fn_selector := encode_hex selector in
  fn_arguments ← merge_args_and_kwargs fn_abi args kwargs;
  let '(_, aligned_fn_arguments) :=
    get_aligned_abi_inputs fn_abi fn_arguments in
  Ok (fn_abi, fn_selector, aligned_fn_arguments).

Definition encode_transaction_data (w3 : Web3) (fn_identifier : fn_id)
    (contract_abi : option ABI) (fn_abi : option ABIElement)
    (args : option (list pyval)) (kwargs : option (gmap string pyval))
    : M string :=
  '(fn_abi, fn_selector, fn_arguments) ←
    lift match fn_identifier with
         | FallbackFn => get_fallback_function_info contract_abi fn_abi
         | ReceiveFn => get_receive_function_info contract_abi fn_abi
         | FnName fn_name =>
             get_function_info fn_name (codec w3) contract_abi fn_abi
               args kwargs
         | FnOther => Raise (TypeError "Unsupported function identifier")
         end;
  encoded ← encode_abi w3 fn_abi fn_arguments (Some fn_selector);
  mret (add_0x_prefix encoded).

Definition payable_violation_message : string :=
  "Sending non-zero ether to a contract function "
  +:+ "with payable=False. Please ensure that "
  +:+ "transaction's value is 0.".

Definition validate_payable (transaction : option loc) (abi : ABIElement)
    : M unit :=
  match transaction with
  | None => raise (TypeError "argument of type 'NoneType' is not iterable")
  | Some l =>
      tx ← py_dict_read l;
      match tx !! "value" with
      | Some value =>
          if py_ne_zero value then
            match abi_payable abi with
            | Some false => raise (ValidationError payable_violation_message)
            | _ => mret tt
            end
          else mret tt
      | None => mret tt
      end
  end.

Definition data_conflict_message : string :=
  "Transaction parameter may not contain a 'data' key".

Definition prepare_transaction (address : option string) (w3 : Web3)
    (fn_identifier : fn_id) (contract_abi : option ABI)
    (fn_abi : option ABIElement) (transaction : option loc)
    (fn_args : option (list pyval)) (fn_kwargs : option (gmap string pyval))
    : M loc :=
  fn_abi ← match fn_abi with
            | None =>
                lift (find_matching_fn_abi contract_abi (codec w3)
                        fn_identifier fn_args fn_kwargs)
            | Some fn_abi => mret fn_abi
            end;
  validate_payable transaction fn_abi;;
  prepared_transaction ←
    match transaction with
    | None => py_dict_new ∅
    | Some l => tx ← py_dict_read l; py_dict_new tx
    end;
  has_data ← py_dict_contains prepared_transaction "data";
  if has_data : bool then raise (ValueError data_conflict_message)
  else
    match address with
    | Some (String _ _ as address) =>
        py_dict_setdefault prepared_transaction "to" (PStr address)
    | _ => mret tt
    end;;
    data ← encode_transaction_data w3 fn_identifier contract_abi
             (Some fn_abi) fn_args fn_kwargs;
    py_dict_setitem prepared_transaction "data" (PStr data);;
    mret prepared_transaction.

End Encoding.

(** ** A small codec and a sample ABI, for running the definitions *)

Definition byte_of_Z (z : Z) : byte :=
  default x00 (Byte.of_N (Z.to_N (z mod 256))).

(** The [n] low-order bytes of [z], most significant first. *)
Fixpoint big_endian (n : nat) (z : Z) : list byte :=
  match n with
  | O => []
  | S n' => (big_endian n' (z / 256) ++ [byte_of_Z z])%list
  end.

Definition sample_is_encodable (type : string) (v : pyval) : bool :=
  match v with
  | PInt z =>
      if String.eqb type "uint256" then (0 <=? z) && (z <? 2 ^ 256)
      else if String.eqb type "int256" then (- 2 ^ 255 <=? z) && (z <? 2 ^ 255)
      else false
  | PBool _ => String.eqb type "bool"
  | _ => false
  end.

Definition sample_encode_word (tv : string * pyval) : external (list byte) :=
  if sample_is_encodable tv.1 tv.2 then
    match tv.2 with
    | PInt z => Returned (big_endian 32 (z mod 2 ^ 256))
    | PBool b => Returned (big_endian 32 (if b then 1 else 0))
    | _ => Failed "EncodingError" "unsupported value"
    end
  else Failed "EncodingError" "value not encodable".

(** A codec for the static types [uint256], [int256] and [bool]: one 32-byte
    word per value. *)
Definition sample_codec : ABICodec := {|
  is_encodable := sample_is_encodable;
  codec_encode_abi := fun types data =>
    words ← mapM sample_encode_word (zip types data);
    mret (concat words)
|}.

Definition identity_normalizer : Normalizer :=
  fun type v => Returned (type, v).

Definition sample_w3 : Web3 := {|
  codec := sample_codec;
  abi_ens_resolver := identity_normalizer
|}.

(** A stand-in for the hash: 32 bytes read off the front of the input.  It
    only serves to run the definitions; no statement depends on it. *)
Definition sample_hash (bs : list byte) : list byte :=
  take 32 (bs ++ replicate 32 x00)%list.

Definition sample_collaborators : Collaborators := {|
  keccak := sample_hash;
  abi_address_to_hex := identity_normalizer;
  abi_bytes_to_bytes := identity_normalizer;
  abi_string_to_text := identity_normalizer
|}.

Definition mk_input (name type : string) : ABIInput :=
  {| input_name := name; input_type := type; input_indexed := false |}.

Definition mk_function (name : string) (inputs : list ABIInput)
    (payable : option bool) : ABIElement :=
  {| abi_type := KFunction; abi_name := Some name; abi_inputs := inputs;
     abi_payable := payable |}.

Definition f_uint : ABIElement :=
  mk_function "f" [mk_input "x" "uint256"] (Some false).
Definition f_int : ABIElement :=
  mk_function "f" [mk_input "x" "int256"] (Some false).
Definition g_pair : ABIElement :=
  mk_function "g" [mk_input "a" "uint256"; mk_input "b" "bool"] (Some true).
Definition h_modern : ABIElement :=
  mk_function "h" [mk_input "x" "uint256"] None.
Definition fallback_entry : ABIElement :=
  {| abi_type := KFallback; abi_name := None; abi_inputs := [];
     abi_payable := Some true |}.
Definition transfer_event : ABIElement :=
  {| abi_type := KEvent; abi_name := Some "Transfer";
     abi_inputs := [mk_input "from" "uint256"; mk_input "to" "uint256"];
     abi_payable := None |}.

Definition sample_abi : ABI :=
  [f_uint; f_int; g_pair; h_modern; fallback_entry; transfer_event].

Definition empty_world : world := {| heap := ∅; calls := [] |}.

(** A world whose heap holds one dictionary, at location 1. *)
Definition world_with (tx : gmap string pyval) : world :=
  {| heap := {[ 1%positive := tx ]}; calls := [] |}.

(** Base transactions for the examples. *)
Definition tx_value_5 : gmap string pyval := {[ "value" := PInt 5 ]}.
Definition tx_with_data : gmap string pyval :=
  {[ "data" := PStr "0x00"; "gas" := PInt 21000 ]}.
Definition tx_with_data_and_value : gmap string pyval :=
  {[ "data" := PStr "0x00"; "value" := PInt 1 ]}.
Definition tx_with_destination : gmap string pyval :=
  {[ "to" := PStr "0x01"; "value" := PInt 0 ]}.

(** What [if address: d.setdefault('to', address)] makes of the content of a
    dictionary [d]. *)
Definition with_destination (address : option string)
    (tx : gmap string pyval) : gmap string pyval :=
  match address with
  | Some (String _ _ as address) =>
      match tx !! "to" with
      | Some _ => tx
      | None => <["to" := PStr address]> tx
      end
  | _ => tx
  end.

(** * Properties *)

(** ** Hex strings *)

Lemma unhex_hex_digit (n : N) :
  (n < 16)%N -> unhex_digit (hex_digit n) = Some n.
Proof.
  intros Hn. destruct n as [|p]; [reflexivity|].
  do 4 (try (destruct p as [p|p|]; [| |reflexivity])); lia || reflexivity.
Qed.

Lemma byte_nibbles (b : byte) :
  byte_of_nibbles (N.shiftr (Byte.to_N b) 4) (N.land (Byte.to_N b) 15) = b.
Proof. destruct b; reflexivity. Qed.

Lemma byte_nibbles_bound (b : byte) :
  (N.shiftr (Byte.to_N b) 4 < 16)%N /\ (N.land (Byte.to_N b) 15 < 16)%N.
Proof. destruct b; split; reflexivity. Qed.

Lemma unhexlify_hexlify (bs : list byte) : unhexlify (hexlify bs) = Some bs.
Proof.
  induction bs as [|b bs IH]; [reflexivity|].
  destruct (byte_nibbles_bound b) as [Hhi Hlo].
  cbn [hexlify unhexlify].
  rewrite (unhex_hex_digit _ Hhi), (unhex_hex_digit _ Hlo), IH.
  cbn. by rewrite byte_nibbles.
Qed.

Lemma hexlify_length (bs : list byte) :
  String.length (hexlify bs) = (2 * length bs)%nat.
Proof. induction bs as [|b bs IH]; cbn [hexlify String.length length]; lia. Qed.

Lemma hexlify_app (xs ys : list byte) :
  hexlify (xs ++ ys) = hexlify xs +:+ hexlify ys.
Proof. induction xs as [|x xs IH]; cbn; [done|]. by rewrite IH. Qed.

(** Decoding the hex form of a byte string gives the byte string back. *)
Lemma HexBytes_encode_hex (bs : list byte) : HexBytes (encode_hex bs) = Ok bs.
Proof.
  unfold HexBytes, encode_hex.
  change ("0x" +:+ hexlify bs) with (String "0" (String "x" (hexlify bs))).
  cbn [remove_0x_prefix String.length].
  rewrite hexlify_length.
  replace (S (S (2 * length bs))) with (2 * S (length bs))%nat by lia.
  assert (Nat.odd (2 * S (length bs)) = false) as ->.
  { rewrite <- Nat.negb_even, Nat.even_mul. reflexivity. }
  by rewrite unhexlify_hexlify.
Qed.

Lemma add_0x_prefix_encode_hex (bs : list byte) :
  add_0x_prefix (encode_hex bs) = encode_hex bs.
Proof. reflexivity. Qed.

(** ** The filter pipeline *)

Lemma merge_args_and_kwargs_count (e : ABIElement) (args : list pyval)
    (kwargs : gmap string pyval) (merged : list pyval) :
  merge_args_and_kwargs e args kwargs = Ok merged ->
  (length args + size kwargs)%nat = length (abi_inputs e).
Proof.
  unfold merge_args_and_kwargs, get_abi_input_names.
  rewrite length_fmap.
  destruct (Nat.eqb_spec (length args + size kwargs) (length (abi_inputs e)));
    [done | discriminate].
Qed.

(** An entry whose arguments can be encoded has as many inputs as there are
    arguments. *)
Lemma check_encodable_count (e : ABIElement) (c : ABICodec)
    (args : list pyval) (kwargs : gmap string pyval) :
  check_if_arguments_can_be_encoded e c args kwargs = true ->
  length (abi_inputs e) = (length args + size kwargs)%nat.
Proof.
  unfold check_if_arguments_can_be_encoded.
  destruct (merge_args_and_kwargs e args kwargs) as [merged|] eqn:Hm;
    [|discriminate].
  intros _. symmetry. by eapply merge_args_and_kwargs_count.
Qed.

(** The encodability filter subsumes the argument-count filter. *)
Lemma filter_by_encodability_count (c : ABICodec) (args : list pyval)
    (kwargs : gmap string pyval) (l : ABI) :
  filter_by_encodability c args kwargs
    (filter_by_argument_count (length args + size kwargs) l)
  = filter_by_encodability c args kwargs l.
Proof.
  unfold filter_by_encodability, filter_by_argument_count.
  rewrite list_filter_filter. apply list_filter_iff.
  intros e. split; [tauto|]. intros He. split; [done|].
  by apply check_encodable_count in He.
Qed.

(** C1: for a name identifier, [find_matching_fn_abi] returns an entry exactly
    when one candidate survives the chain name filter, argument-count filter,
    encodability filter; otherwise it raises a [ValidationError] whose
    diagnosis is the improper-argument-count one when no name match survives
    the count filter, else the no-matching-types one when none survives the
    encodability filter, else the ambiguity one (then more than one
    survives): a diagnosis is bound on every failing path. *)
Theorem find_matching_fn_abi_diagnosis (abi : ABI) (abi_codec : ABICodec)
    (name : string) (args : option (list pyval))
    (kwargs : option (gmap string pyval)) :
  let a := default [] args in
  let k := default ∅ kwargs in
  let by_name := filter_by_name name abi in
  let by_count := filter_by_argument_count (length a + size k) by_name in
  let survivors := filter_by_encodability abi_codec a k by_count in
  let failure diagnosis :=
    Raise (ValidationError
             (fn_mismatch_message name a k by_name
                (abi_to_signature <$> by_name) diagnosis)) in
  find_matching_fn_abi (Some abi) abi_codec (FnName name) args kwargs =
    match survivors with
    | [e] => Ok e
    | [] =>
        match by_count with
        | [] => failure diagnosis_arg_count
        | _ => failure diagnosis_arg_types
        end
    | _ :: _ :: _ => failure diagnosis_ambiguous
    end.
Proof.
  intros a k by_name by_count survivors failure.
  unfold find_matching_fn_abi. cbn [iter_abi mbind result_bind pipe foldl].
  fold a k by_name by_count survivors.
  assert (Hs : filter_by_encodability abi_codec a k by_name = survivors)
    by (symmetry; apply filter_by_encodability_count).
  assert (Hnil : by_count = [] -> survivors = [])
    by (intros Hc; unfold survivors; by rewrite Hc).
  rewrite Hs. clearbody survivors. clear Hs.
  destruct survivors as [|e1 [|e2 rest]].
  - destruct by_count as [|x xs]; reflexivity.
  - reflexivity.
  - destruct by_count as [|x xs]; [|reflexivity].
    by specialize (Hnil eq_refl).
Qed.

(** The three diagnoses on the overloads [f(uint256)] and [f(int256)]. *)
Example diagnosis_wrong_arity :
  find_matching_fn_abi (Some sample_abi) sample_codec (FnName "f")
    (Some [PInt 1; PInt 2]) None
  = Raise (ValidationError
             (fn_mismatch_message "f" [PInt 1; PInt 2] ∅ [f_uint; f_int]
                ["f(uint256)"; "f(int256)"] diagnosis_arg_count)).
Proof. vm_compute. reflexivity. Qed.

Example diagnosis_not_encodable :
  find_matching_fn_abi (Some sample_abi) sample_codec (FnName "f")
    (Some [PStr "one"]) None
  = Raise (ValidationError
             (fn_mismatch_message "f" [PStr "one"] ∅ [f_uint; f_int]
                ["f(uint256)"; "f(int256)"] diagnosis_arg_types)).
Proof. vm_compute. reflexivity. Qed.

Example diagnosis_ambiguous_overloads :
  find_matching_fn_abi (Some sample_abi) sample_codec (FnName "f")
    (Some [PInt 1]) None
  = Raise (ValidationError
             (fn_mismatch_message "f" [PInt 1] ∅ [f_uint; f_int]
                ["f(uint256)"; "f(int256)"] diagnosis_ambiguous)).
Proof. vm_compute. reflexivity. Qed.

Example resolution_by_type :
  find_matching_fn_abi (Some sample_abi) sample_codec (FnName "f")
    (Some [PInt (-1)]) None = Ok f_int.
Proof. vm_compute. reflexivity. Qed.

Example resolution_with_named_argument :
  find_matching_fn_abi (Some sample_abi) sample_codec (FnName "g")
    (Some [PInt 1]) (Some {[ "b" := PBool true ]}) = Ok g_pair.
Proof. vm_compute. reflexivity. Qed.

(** C6: [find_matching_event_abi] runs the chain kind filter, then the name
    filter when a name is given, then the argument-name filter when names
    are given; it returns the survivor when there is exactly one, raises the
    no-match error when there is none and the multiple-match error when
    there are several.  The survivors are the events of the ABI with the
    given name and with every given argument name among their parameters. *)
Theorem find_matching_event_abi_outcome (abi : ABI)
    (event_name : option string) (argument_names : option (list string)) :
  let by_kind := filter_by_type KEvent abi in
  let by_name :=
    match event_name with
    | Some name => filter_by_name name by_kind
    | None => by_kind
    end in
  let survivors :=
    match argument_names with
    | Some names => filter_by_argument_name names by_name
    | None => by_name
    end in
  find_matching_event_abi abi event_name argument_names =
    match survivors with
    | [e] => Ok e
    | [] => Raise (ValueError "No matching events found")
    | _ :: _ :: _ => Raise (ValueError "Multiple events found")
    end
  /\ forall e,
       e ∈ survivors <->
       e ∈ abi /\ abi_type e = KEvent
       /\ (forall name, event_name = Some name -> abi_name e = Some name)
       /\ (forall names, argument_names = Some names ->
             Forall (fun n => n ∈ get_abi_input_names e) names).
Proof.
  intros by_kind by_name survivors. split.
  - unfold find_matching_event_abi.
    assert (Hp : pipe abi
              (match argument_names with
               | Some names =>
                   (match event_name with
                    | Some name => [filter_by_type KEvent] ++ [filter_by_name name]
                    | None => [filter_by_type KEvent]
                    end ++ [filter_by_argument_name names])%list
               | None =>
                   match event_name with
                   | Some name => ([filter_by_type KEvent] ++ [filter_by_name name])%list
                   | None => [filter_by_type KEvent]
                   end
               end) = survivors).
    { subst survivors by_name by_kind.
      destruct event_name, argument_names; reflexivity. }
    cbv zeta. rewrite Hp.
    by destruct survivors as [|e1 [|e2 rest]].
  - intros e. subst survivors by_name by_kind.
    unfold filter_by_argument_name, filter_by_name, filter_by_type.
    destruct event_name as [name|], argument_names as [names|];
      rewrite ?list_elem_of_filter;
      (split; [intuition congruence | intros (? & ? & Hname & Hnames); eauto 10]).
Qed.

(** ** Encoding *)

Section EncodingProperties.
Context `{Collaborators}.

(** Unfolds the monadic plumbing of [M]. *)
Ltac run_M :=
  unfold mbind, M_bind, mret, M_ret, lift, raise, log_call, py_dict_read,
    py_dict_new, py_dict_update, py_dict_contains, py_dict_setdefault,
    py_dict_setitem in *;
  cbn [fst snd heap calls] in *.

Lemma encode_abi_not_encodable (w3 : Web3) (abi : ABIElement)
    (arguments : list pyval) (data : option string) (w : world) :
  check_if_arguments_can_be_encoded abi (codec w3) arguments ∅ = false ->
  encode_abi w3 abi arguments data w
  = (Raise (TypeError (not_encodable_message (get_abi_input_types abi))), w).
Proof. intros Hc. unfold encode_abi. rewrite Hc. reflexivity. Qed.

Lemma encode_abi_encodable (w3 : Web3) (abi : ABIElement)
    (arguments normalized : list pyval) (prefix encoded : list byte)
    (w : world) :
  let types := get_abi_input_types abi in
  check_if_arguments_can_be_encoded abi (codec w3) arguments ∅ = true ->
  map_abi_data
    [abi_ens_resolver w3; abi_address_to_hex; abi_bytes_to_bytes;
     abi_string_to_text] types arguments = Returned normalized ->
  codec_encode_abi (codec w3) types normalized = Returned encoded ->
  encode_abi w3 abi arguments (Some (encode_hex prefix)) w
  = (Ok (encode_hex (prefix ++ encoded)),
     {| heap := heap w;
        calls := calls w ++ [CallNormalize types arguments;
                             CallEncode types normalized] |}).
Proof.
  intros types Hc Hn He. unfold encode_abi. fold types.
  rewrite Hc. cbn [negb]. run_M. rewrite Hn. cbn [from_external].
  rewrite He. cbn [from_external].
  change (encode_hex prefix) with (String "0" (String "x" (hexlify prefix))).
  change (String "0" (String "x" (hexlify prefix))) with (encode_hex prefix).
  rewrite HexBytes_encode_hex. unfold to_hex.
  by rewrite <- app_assoc.
Qed.

(** Whatever it returns, [encode_abi] leaves the heap as it was. *)
Lemma encode_abi_heap (w3 : Web3) (abi : ABIElement) (arguments : list pyval)
    (data : option string) (w : world) :
  heap (encode_abi w3 abi arguments data w).2 = heap w.
Proof.
  unfold encode_abi.
  destruct (check_if_arguments_can_be_encoded _ _ _ _); cbn [negb]; [|done].
  run_M.
  destruct (map_abi_data _ _ _); cbn [from_external]; [|done].
  destruct (codec_encode_abi _ _ _); cbn [from_external]; [|done].
  destruct data as [[|c rest]|]; try done.
  by destruct (HexBytes _).
Qed.

(** C7: [encode_abi] raises its not-encodable [TypeError] exactly when the
    arguments fail the encodability check against the entry's declared input
    types.  On that path the state is left as it was: neither the
    normalizers nor the codec's encoder have been called.  When the check
    passes, the next call to a collaborator is the normalization of the
    arguments. *)
Theorem encode_abi_revalidates (w3 : Web3) (abi : ABIElement)
    (arguments : list pyval) (data : option string) (w : world) :
  let types := get_abi_input_types abi in
  let encodable :=
    check_if_arguments_can_be_encoded abi (codec w3) arguments ∅ in
  let r := encode_abi w3 abi arguments data w in
  (r.1 = Raise (TypeError (not_encodable_message types)) <-> encodable = false)
  /\ (encodable = false -> r.2 = w)
  /\ (encodable = true ->
        exists rest, calls r.2
                     = (calls w ++ CallNormalize types arguments :: rest)%list).
Proof.
  intros types encodable r. subst r.
  destruct encodable eqn:Hc; subst encodable.
  - split; [|split]; [|done|intros _].
    + split; [|done]. unfold encode_abi. rewrite Hc. cbn [negb]. run_M.
      destruct (map_abi_data _ _ _); cbn [from_external]; [|done].
      destruct (codec_encode_abi _ _ _); cbn [from_external]; [|done].
      destruct data as [[|c rest]|]; try done.
      unfold HexBytes. by destruct (unhexlify _).
    + unfold encode_abi. rewrite Hc. cbn [negb]. run_M. fold types.
      destruct (map_abi_data _ _ _); cbn [from_external]; [|by eexists].
      destruct (codec_encode_abi _ _ _); cbn [from_external];
        [|eexists; by rewrite <- app_assoc].
      destruct data as [[|c rest]|]; cbn [snd calls];
        try (eexists; by rewrite <- app_assoc).
      destruct (HexBytes _); eexists; by rewrite <- app_assoc.
  - rewrite (encode_abi_not_encodable _ _ _ _ _ Hc). by repeat split.
Qed.

Lemma merge_args_no_kwargs (e : ABIElement) (args : list pyval) :
  length args = length (abi_inputs e) ->
  merge_args_and_kwargs e args ∅ = Ok args.
Proof.
  intros Hl. unfold merge_args_and_kwargs, get_abi_input_names.
  rewrite length_fmap, map_size_empty, Nat.add_0_r, Hl, Nat.eqb_refl.
  cbn [negb]. by rewrite bool_decide_eq_true_2.
Qed.

(** Arguments that pass the encodability check merge into one positional
    list, and that list passes the check again on its own. *)
Lemma check_encodable_merged (e : ABIElement) (c : ABICodec)
    (args : list pyval) (kwargs : gmap string pyval) :
  check_if_arguments_can_be_encoded e c args kwargs = true ->
  exists merged,
    merge_args_and_kwargs e args kwargs = Ok merged
    /\ check_if_arguments_can_be_encoded e c merged ∅ = true.
Proof.
  unfold check_if_arguments_can_be_encoded at 1.
  destruct (merge_args_and_kwargs e args kwargs) as [merged|] eqn:Hm;
    [|discriminate].
  destruct (Nat.eqb_spec (length (abi_inputs e)) (length merged)) as [Hl|];
    [|discriminate].
  cbn [negb get_aligned_abi_inputs]. intros Hall.
  exists merged. split; [done|].
  unfold check_if_arguments_can_be_encoded.
  rewrite merge_args_no_kwargs by done.
  rewrite Hl, Nat.eqb_refl. exact Hall.
Qed.

Lemma find_matching_fn_abi_defaults (contract_abi : option ABI)
    (c : ABICodec) (id : fn_id) (args : option (list pyval))
    (kwargs : option (gmap string pyval)) :
  find_matching_fn_abi contract_abi c id
    (Some (default [] args)) (Some (default ∅ kwargs))
  = find_matching_fn_abi contract_abi c id args kwargs.
Proof. reflexivity. Qed.

(** C2: for a name identifier, an entry (given, or resolved from the ABI)
    and arguments that can be encoded against it, [encode_transaction_data]
    returns the [0x]-prefixed hex string of the 4-byte selector, the first
    four bytes of the hash of the entry's name followed by its
    comma-joined parameter types in parentheses, spaces removed, immediately
    followed by the codec's encoding of the normalized arguments and nothing
    else.  For the fallback and receive identifiers the selector is
    empty. *)
Theorem encode_transaction_data_layout (w3 : Web3) :
  (forall (name : string) (contract_abi : option ABI)
          (fn_abi : option ABIElement) (args : option (list pyval))
          (kwargs : option (gmap string pyval)) (entry : ABIElement)
          (fname : string) (arguments normalized : list pyval)
          (encoded : list byte) (w : world),
     let types := get_abi_input_types entry in
     let selector :=
       take 4 (keccak (list_byte_of_string
                 (remove_spaces
                    (fname +:+ "(" +:+ String.concat "," types +:+ ")")))) in
     match fn_abi with
     | Some e => Ok e
     | None => find_matching_fn_abi contract_abi (codec w3) (FnName name)
                 args kwargs
     end = Ok entry ->
     abi_name entry = Some fname ->
     check_if_arguments_can_be_encoded entry (codec w3)
       (default [] args) (default ∅ kwargs) = true ->
     merge_args_and_kwargs entry (default [] args) (default ∅ kwargs)
       = Ok arguments ->
     map_abi_data
       [abi_ens_resolver w3; abi_address_to_hex; abi_bytes_to_bytes;
        abi_string_to_text] types arguments = Returned normalized ->
     codec_encode_abi (codec w3) types normalized = Returned encoded ->
     (encode_transaction_data w3 (FnName name) contract_abi fn_abi args
        kwargs w).1
     = Ok ("0x" +:+ hexlify (selector ++ encoded)))
  /\
  (forall (id : fn_id) (contract_abi : option ABI)
          (fn_abi : option ABIElement) (args : option (list pyval))
          (kwargs : option (gmap string pyval)) (entry : ABIElement)
          (normalized : list pyval) (encoded : list byte) (w : world),
     let types := get_abi_input_types entry in
     id = FallbackFn \/ id = ReceiveFn ->
     match fn_abi with
     | Some e => Ok e
     | None => find_matching_fn_abi contract_abi (codec w3) id args kwargs
     end = Ok entry ->
     check_if_arguments_can_be_encoded entry (codec w3) [] ∅ = true ->
     map_abi_data
       [abi_ens_resolver w3; abi_address_to_hex; abi_bytes_to_bytes;
        abi_string_to_text] types [] = Returned normalized ->
     codec_encode_abi (codec w3) types normalized = Returned encoded ->
     (encode_transaction_data w3 id contract_abi fn_abi args kwargs w).1
     = Ok ("0x" +:+ hexlify ([] ++ encoded))).
Proof.
  split.
  - intros name contract_abi fn_abi args kwargs entry fname arguments
      normalized encoded w types selector Hres Hname Hc Hm Hn He.
    destruct (check_encodable_merged _ _ _ _ Hc) as (merged & Hm' & Hc').
    rewrite Hm in Hm'. injection Hm' as <-.
    unfold encode_transaction_data, get_function_info.
    rewrite find_matching_fn_abi_defaults.
    assert (Hinfo :
      (fn_abi0 ← match fn_abi with
                 | Some e => Ok e
                 | None => find_matching_fn_abi contract_abi (codec w3)
                             (FnName name) args kwargs
                 end;
       sel ← function_abi_to_4byte_selector fn_abi0;
       fn_arguments ← merge_args_and_kwargs fn_abi0 (default [] args)
                        (default ∅ kwargs);
       let '(_, aligned) := get_aligned_abi_inputs fn_abi0 fn_arguments in
       Ok (fn_abi0, encode_hex sel, aligned))
      = Ok (entry, encode_hex selector, arguments)).
    { rewrite Hres. cbn [mbind result_bind].
      unfold function_abi_to_4byte_selector. rewrite Hname.
      cbn [mbind result_bind]. rewrite Hm. reflexivity. }
    destruct fn_abi as [e|]; cbn [mbind result_bind] in Hinfo |- *.
    all: unfold mbind at 1, M_bind, lift; rewrite Hinfo.
    all: unfold mbind, M_bind.
    all: rewrite (encode_abi_encodable _ _ _ _ _ _ _ Hc' Hn He).
    all: reflexivity.
  - intros id contract_abi fn_abi args kwargs entry normalized encoded w
      types Hid Hres Hc Hn He.
    unfold encode_transaction_data, get_fallback_function_info,
      get_receive_function_info.
    destruct Hid as [-> | ->]; cbn [find_matching_fn_abi] in Hres.
    all: destruct fn_abi as [e|]; cbn [mbind result_bind];
      [injection Hres as ->|rewrite Hres]; cbn [mbind result_bind].
    all: unfold mbind at 1, M_bind, lift.
    all: unfold mbind, M_bind.
    all: rewrite (encode_abi_encodable _ _ _ _ [] _ _ Hc Hn He).
    all: reflexivity.
Qed.

(** ** Payable validation *)

Lemma validate_payable_run (entry : ABIElement) (l : loc)
    (tx : gmap string pyval) (w : world) :
  heap w !! l = Some tx ->
  validate_payable (Some l) entry w =
    match tx !! "value", abi_payable entry with
    | Some v, Some false =>
        if py_ne_zero v
        then (Raise (ValidationError payable_violation_message), w)
        else (Ok tt, w)
    | _, _ => (Ok tt, w)
    end.
Proof.
  intros Hl. unfold validate_payable. run_M. rewrite Hl.
  cbv [default from_option id].
  destruct (tx !! "value") as [v|]; [|done].
  destruct (py_ne_zero v), (abi_payable entry) as [[|]|]; reflexivity.
Qed.

Lemma prepare_transaction_unresolved (address : option string) (w3 : Web3)
    (id : fn_id) (contract_abi : option ABI) (transaction : option loc)
    (args : option (list pyval)) (kwargs : option (gmap string pyval))
    (w : world) (e : exn) :
  find_matching_fn_abi contract_abi (codec w3) id args kwargs = Raise e ->
  prepare_transaction address w3 id contract_abi None transaction args
    kwargs w = (Raise e, w).
Proof.
  intros Hres. unfold prepare_transaction. unfold mbind at 1, M_bind, lift.
  by rewrite Hres.
Qed.

(** A failed payable validation is what [prepare_transaction] raises, the
    state left as the validation left it. *)
Lemma prepare_transaction_invalid (address : option string) (w3 : Web3)
    (id : fn_id) (contract_abi : option ABI) (fn_abi : option ABIElement)
    (transaction : option loc) (entry : ABIElement)
    (args : option (list pyval)) (kwargs : option (gmap string pyval))
    (w w' : world) (e : exn) :
  match fn_abi with
  | Some e => Ok e
  | None => find_matching_fn_abi contract_abi (codec w3) id args kwargs
  end = Ok entry ->
  validate_payable transaction entry w = (Raise e, w') ->
  prepare_transaction address w3 id contract_abi fn_abi transaction args
    kwargs w = (Raise e, w').
Proof.
  intros Hres Hv. unfold prepare_transaction.
  assert (Hfn :
    match fn_abi with
    | Some fn_abi0 => mret fn_abi0
    | None => lift (find_matching_fn_abi contract_abi (codec w3) id
                      args kwargs)
    end w = (Ok entry, w)).
  { destruct fn_abi; [by injection Hres as ->|].
    unfold lift. by rewrite Hres. }
  unfold mbind at 1, M_bind. rewrite Hfn.
  unfold mbind at 1, M_bind. by rewrite Hv.
Qed.

(** C3, as the code has it: a transaction whose value is absent or zero
    passes the payable validation whatever the entry's payable flag; a
    non-zero value sent to an entry whose payable flag is present and false
    fails with the [ValidationError], and [prepare_transaction] then raises
    it with the state untouched, no request having been built. *)
Theorem validate_payable_rule (entry : ABIElement) (l : loc)
    (tx : gmap string pyval) (w : world) :
  heap w !! l = Some tx ->
  ((tx !! "value" = None
    \/ exists v, tx !! "value" = Some v /\ py_ne_zero v = false) ->
   validate_payable (Some l) entry w = (Ok tt, w))
  /\
  (forall v, tx !! "value" = Some v -> py_ne_zero v = true ->
     abi_payable entry = Some false ->
     validate_payable (Some l) entry w
     = (Raise (ValidationError payable_violation_message), w)
     /\ forall (address : option string) (w3 : Web3) (id : fn_id)
               (contract_abi : option ABI) (fn_abi : option ABIElement)
               (args : option (list pyval))
               (kwargs : option (gmap string pyval)),
          match fn_abi with
          | Some e => Ok e
          | None => find_matching_fn_abi contract_abi (codec w3) id
                      args kwargs
          end = Ok entry ->
          prepare_transaction address w3 id contract_abi fn_abi (Some l)
            args kwargs w
          = (Raise (ValidationError payable_violation_message), w)).
Proof.
  intros Hl. rewrite (validate_payable_run _ _ _ _ Hl). split.
  - intros [-> | (v & -> & Hz)]; [done|].
    rewrite Hz. by destruct (abi_payable entry) as [[|]|].
  - intros v Hv Hnz Hp. rewrite Hv, Hp, Hnz. split; [done|].
    intros address w3 id contract_abi fn_abi args kwargs Hres.
    apply (prepare_transaction_invalid _ _ _ _ _ _ entry); [done|].
    by rewrite (validate_payable_run _ _ _ _ Hl), Hv, Hp, Hnz.
Qed.

(** C5: with the base transaction omitted, [prepare_transaction] never
    returns a request: whatever the other inputs, it raises and leaves the
    state as it was.  Once the entry is resolved, the payable validation
    tests membership in [None]. *)
Theorem prepare_transaction_without_transaction
    (address : option string) (w3 : Web3) (id : fn_id)
    (contract_abi : option ABI) (fn_abi : option ABIElement)
    (args : option (list pyval)) (kwargs : option (gmap string pyval))
    (w : world) :
  let resolved :=
    match fn_abi with
    | Some e => Ok e
    | None => find_matching_fn_abi contract_abi (codec w3) id args kwargs
    end in
  prepare_transaction address w3 id contract_abi fn_abi None args kwargs w
  = (match resolved with
     | Ok _ => Raise (TypeError "argument of type 'NoneType' is not iterable")
     | Raise e => Raise e
     end, w).
Proof.
  intros resolved. subst resolved. unfold prepare_transaction.
  unfold mbind at 1, M_bind.
  destruct fn_abi as [e|]; [reflexivity|].
  unfold lift.
  by destruct (find_matching_fn_abi contract_abi (codec w3) id args kwargs).
Qed.

(** ** Assembly *)

Lemma encode_transaction_data_heap (w3 : Web3) (id : fn_id)
    (contract_abi : option ABI) (fn_abi : option ABIElement)
    (args : option (list pyval)) (kwargs : option (gmap string pyval))
    (w : world) :
  heap (encode_transaction_data w3 id contract_abi fn_abi args kwargs w).2
  = heap w.
Proof.
  unfold encode_transaction_data. unfold mbind at 1, M_bind, lift.
  match goal with |- context [match ?r with _ => _ end] =>
    destruct r as [[[e sel] fn_arguments]|] eqn:Hinfo end; [|done].
  unfold mbind, M_bind.
  pose proof (encode_abi_heap w3 e fn_arguments (Some sel) w) as Hh.
  by destruct (encode_abi w3 e fn_arguments (Some sel) w) as [[enc|] w'].
Qed.

Lemma py_dict_contains_run (p : loc) (k : string) (d : gmap string pyval)
    (w : world) :
  heap w !! p = Some d ->
  py_dict_contains p k w = (Ok (bool_decide (is_Some (d !! k))), w).
Proof.
  intros Hp. unfold py_dict_contains, mbind, M_bind, py_dict_read.
  by rewrite Hp.
Qed.

Lemma py_dict_setdefault_run (p : loc) (k : string) (v : pyval)
    (d : gmap string pyval) (w : world) :
  heap w !! p = Some d ->
  py_dict_setdefault p k v w
  = (Ok tt,
     {| heap := <[p := match d !! k with
                       | Some _ => d
                       | None => <[k := v]> d
                       end]> (heap w);
        calls := calls w |}).
Proof.
  intros Hp. unfold py_dict_setdefault, py_dict_update. by rewrite Hp.
Qed.

Lemma py_dict_setitem_run (p : loc) (k : string) (v : pyval)
    (d : gmap string pyval) (w : world) :
  heap w !! p = Some d ->
  py_dict_setitem p k v w
  = (Ok tt, {| heap := <[p := <[k := v]> d]> (heap w); calls := calls w |}).
Proof.
  intros Hp. unfold py_dict_setitem, py_dict_update. by rewrite Hp.
Qed.

(** The run of [prepare_transaction] on a base transaction that passes the
    payable validation. *)
Lemma prepare_transaction_run (address : option string) (w3 : Web3)
    (id : fn_id) (contract_abi : option ABI) (fn_abi : option ABIElement)
    (l : loc) (tx : gmap string pyval) (entry : ABIElement)
    (args : option (list pyval)) (kwargs : option (gmap string pyval))
    (w : world) :
  heap w !! l = Some tx ->
  match fn_abi with
  | Some e => Ok e
  | None => find_matching_fn_abi contract_abi (codec w3) id args kwargs
  end = Ok entry ->
  validate_payable (Some l) entry w = (Ok tt, w) ->
  let p := fresh (dom (heap w)) in
  prepare_transaction address w3 id contract_abi fn_abi (Some l) args kwargs w
  = if bool_decide (is_Some (tx !! "data")) then
      (Raise (ValueError data_conflict_message),
       {| heap := <[p := tx]> (heap w); calls := calls w |})
    else
      let tx' := with_destination address tx in
      let w1 := {| heap := <[p := tx']> (heap w); calls := calls w |} in
      match encode_transaction_data w3 id contract_abi (Some entry)
              args kwargs w1 with
      | (Ok data, w2) =>
          (Ok p, {| heap := <[p := <["data" := PStr data]> tx']> (heap w);
                    calls := calls w2 |})
      | (Raise e, w2) => (Raise e, w2)
      end.
Proof.
  intros Hl Hres Hv p. unfold prepare_transaction.
  assert (Hfn :
    match fn_abi with
    | Some fn_abi0 => mret fn_abi0
    | None => lift (find_matching_fn_abi contract_abi (codec w3) id
                      args kwargs)
    end w = (Ok entry, w)).
  { destruct fn_abi; [by injection Hres as ->|].
    unfold lift. by rewrite Hres. }
  unfold mbind at 1, M_bind. rewrite Hfn.
  unfold mbind at 1, M_bind. rewrite Hv.
  unfold mbind, M_bind, py_dict_read, py_dict_new. cbv beta iota.
  rewrite Hl. cbv beta iota delta [default from_option Datatypes.id].
  cbn [heap calls]. fold p.
  rewrite (py_dict_contains_run p "data" tx) by apply lookup_insert_eq.
  destruct (bool_decide (is_Some (tx !! "data"))); [reflexivity|].
  set (tx' := with_destination address tx).
  set (w1 := {| heap := <[p := tx']> (heap w); calls := calls w |}).
  assert (Hto :
    match address with
    | Some (String _ _ as address0) =>
        py_dict_setdefault p "to" (PStr address0)
    | _ => mret ()
    end {| heap := <[p := tx]> (heap w); calls := calls w |} = (Ok (), w1)).
  { subst w1 tx'. unfold with_destination.
    destruct address as [[|c rest]|]; try reflexivity.
    rewrite (py_dict_setdefault_run p "to" _ tx) by apply lookup_insert_eq.
    cbn [heap calls]. by rewrite insert_insert_eq. }
  rewrite Hto.
  pose proof (encode_transaction_data_heap w3 id contract_abi (Some entry)
                args kwargs w1) as Hh.
  destruct (encode_transaction_data w3 id contract_abi (Some entry)
              args kwargs w1) as [[data|e] w2]; [|reflexivity].
  cbn [snd] in Hh.
  rewrite (py_dict_setitem_run p "data" _ tx')
    by (rewrite Hh; apply lookup_insert_eq).
  rewrite Hh. subst w1. cbn [heap]. by rewrite insert_insert_eq.
Qed.

Lemma fresh_loc_unused (w : world) : heap w !! fresh (dom (heap w)) = None.
Proof. apply not_elem_of_dom, is_fresh. Qed.

(** C4, as the code has it: on a base transaction that already has a
    ['data'] field, [prepare_transaction] fails whatever the other fields
    and the resolved entry are.  The payable validation runs first: when it
    fails (a non-zero value, an entry whose payable flag is false) its
    [ValidationError] is raised; in every other case the data-conflict
    [ValueError] is.  The caller's dictionary is left as it was. *)
Theorem prepare_transaction_data_conflict (address : option string)
    (w3 : Web3) (id : fn_id) (contract_abi : option ABI)
    (fn_abi : option ABIElement) (l : loc) (tx : gmap string pyval)
    (entry : ABIElement) (args : option (list pyval))
    (kwargs : option (gmap string pyval)) (w : world) :
  heap w !! l = Some tx ->
  is_Some (tx !! "data") ->
  match fn_abi with
  | Some e => Ok e
  | None => find_matching_fn_abi contract_abi (codec w3) id args kwargs
  end = Ok entry ->
  let payable_violation :=
    match tx !! "value", abi_payable entry with
    | Some v, Some false => py_ne_zero v
    | _, _ => false
    end in
  let r := prepare_transaction address w3 id contract_abi fn_abi (Some l)
             args kwargs w in
  r.1 = Raise (if payable_violation
               then ValidationError payable_violation_message
               else ValueError data_conflict_message)
  /\ heap r.2 !! l = Some tx.
Proof.
  intros Hl Hdata Hres payable_violation r. subst r.
  pose proof (validate_payable_run entry l tx w Hl) as Hv.
  assert (Hcases :
    (payable_violation = true
     /\ validate_payable (Some l) entry w
        = (Raise (ValidationError payable_violation_message), w))
    \/ (payable_violation = false
        /\ validate_payable (Some l) entry w = (Ok tt, w))).
  { subst payable_violation. rewrite Hv.
    destruct (tx !! "value") as [v|]; [|by right].
    destruct (abi_payable entry) as [[|]|]; try by right.
    destruct (py_ne_zero v); [by left | by right]. }
  destruct Hcases as [[-> Hv'] | [-> Hv']].
  - by rewrite (prepare_transaction_invalid _ _ _ _ _ _ entry _ _ _ _ _
                  Hres Hv').
  - rewrite (prepare_transaction_run _ _ _ _ _ _ _ _ _ _ _ Hl Hres Hv').
    rewrite bool_decide_eq_true_2 by done. cbn [fst snd heap]. split; [done|].
    rewrite lookup_insert_ne; [done|].
    intros <-. by rewrite fresh_loc_unused in Hl.
Qed.

(** C8: [prepare_transaction] leaves every dictionary that exists when it is
    called as it was, the caller's base transaction among them.  The request
    it returns is a dictionary that did not exist before; it holds the call
    data, the caller's other fields, and as destination the caller's own
    when the base transaction has one, else the address when one is
    given. *)
Theorem prepare_transaction_frame (address : option string) (w3 : Web3)
    (id : fn_id) (contract_abi : option ABI) (fn_abi : option ABIElement)
    (l : loc) (tx : gmap string pyval) (args : option (list pyval))
    (kwargs : option (gmap string pyval)) (w : world) :
  heap w !! l = Some tx ->
  let r := prepare_transaction address w3 id contract_abi fn_abi (Some l)
             args kwargs w in
  (forall l' d, heap w !! l' = Some d -> heap r.2 !! l' = Some d)
  /\ (forall p, r.1 = Ok p ->
        heap w !! p = None
        /\ exists d data,
             heap r.2 !! p = Some d
             /\ d !! "data" = Some (PStr data)
             /\ d !! "to" = match tx !! "to" with
                            | Some v => Some v
                            | None =>
                                match address with
                                | Some (String _ _ as a) => Some (PStr a)
                                | _ => None
                                end
                            end
             /\ forall k, k ≠ "to" -> k ≠ "data" -> d !! k = tx !! k).
Proof.
  intros Hl r. subst r.
  destruct (match fn_abi with
            | Some e => Ok e
            | None => find_matching_fn_abi contract_abi (codec w3) id
                        args kwargs
            end) as [entry|e] eqn:Hres.
  2: { destruct fn_abi; [done|].
       rewrite (prepare_transaction_unresolved _ _ _ _ _ _ _ _ _ Hres).
       split; [done | by intros p]. }
  pose proof (validate_payable_run entry l tx w Hl) as Hv.
  assert (Hcases :
    (exists e, validate_payable (Some l) entry w = (Raise e, w))
    \/ validate_payable (Some l) entry w = (Ok tt, w)).
  { rewrite Hv. destruct (tx !! "value") as [v|]; [|by right].
    destruct (abi_payable entry) as [[|]|]; try by right.
    destruct (py_ne_zero v); [left; by eexists | by right]. }
  destruct Hcases as [[e Hv'] | Hv'].
  { rewrite (prepare_transaction_invalid _ _ _ _ _ _ entry _ _ _ _ _
               Hres Hv').
    split; [done | by intros p]. }
  rewrite (prepare_transaction_run _ _ _ _ _ _ _ _ _ _ _ Hl Hres Hv').
  pose proof (fresh_loc_unused w) as Hfresh.
  set (p := fresh (dom (heap w))) in *.
  assert (Hframe : forall (d' : gmap string pyval) l' d,
            heap w !! l' = Some d -> <[p := d']> (heap w) !! l' = Some d).
  { intros d' l' d Hd. rewrite lookup_insert_ne; [done|].
    intros <-. by rewrite Hfresh in Hd. }
  destruct (bool_decide (is_Some (tx !! "data"))) eqn:Hdata.
  { cbn [fst snd heap]. split; [apply Hframe | by intros q]. }
  apply bool_decide_eq_false in Hdata.
  cbv zeta.
  pose proof (encode_transaction_data_heap w3 id contract_abi (Some entry)
                args kwargs
                {| heap := <[p := with_destination address tx]> (heap w);
                   calls := calls w |}) as Hh.
  destruct (encode_transaction_data w3 id contract_abi (Some entry) args
              kwargs _) as [[data|e] w2]; cbn [fst snd heap] in *.
  2: { rewrite Hh. split; [apply Hframe | by intros q]. }
  split; [apply Hframe|].
  intros q [= <-]. split; [done|].
  exists (<["data" := PStr data]> (with_destination address tx)), data.
  rewrite lookup_insert_eq. split; [done|].
  split; [apply lookup_insert_eq|].
  unfold with_destination. split.
  - rewrite lookup_insert_ne by done.
    destruct address as [[|c rest]|];
      destruct (tx !! "to") as [v|] eqn:Hto; try done.
    apply lookup_insert_eq.
  - intros k Hk1 Hk2. rewrite lookup_insert_ne by done.
    destruct address as [[|c rest]|]; try done.
    destruct (tx !! "to"); [done|]. by rewrite lookup_insert_ne.
Qed.

(** ** The fallback and receive identifiers *)

Lemma check_encodable_no_inputs (entry : ABIElement) (c : ABICodec) :
  abi_inputs entry = [] ->
  check_if_arguments_can_be_encoded entry c [] ∅ = true.
Proof.
  intros Hin. unfold check_if_arguments_can_be_encoded.
  rewrite merge_args_no_kwargs by by rewrite Hin.
  unfold get_aligned_abi_inputs, get_abi_input_types. by rewrite Hin.
Qed.

(** C10: for the fallback and receive identifiers the lookup is that of the
    sentinel entry, the same whatever arguments are passed: neither their
    number nor their encodability is looked at.  [encode_transaction_data]
    then encodes the empty argument list after the empty selector: on a
    sentinel without inputs the call data is the hex form of the codec's
    encoding of no values, and the caller's arguments do not appear in
    it. *)
Theorem sentinel_arguments_ignored (w3 : Web3) (id : fn_id)
    (contract_abi : option ABI) (fn_abi : option ABIElement)
    (args : option (list pyval)) (kwargs : option (gmap string pyval))
    (w : world) :
  id = FallbackFn \/ id = ReceiveFn ->
  let sentinel :=
    match id with
    | FallbackFn => get_fallback_func_abi contract_abi
    | _ => get_receive_func_abi contract_abi
    end in
  find_matching_fn_abi contract_abi (codec w3) id args kwargs = sentinel
  /\ encode_transaction_data w3 id contract_abi fn_abi args kwargs w
     = (entry ← lift match fn_abi with Some e => Ok e | None => sentinel end;
        encoded ← encode_abi w3 entry [] (Some (encode_hex []));
        mret (add_0x_prefix encoded)) w
  /\ forall entry encoded,
       match fn_abi with Some e => Ok e | None => sentinel end = Ok entry ->
       abi_inputs entry = [] ->
       codec_encode_abi (codec w3) [] [] = Returned encoded ->
       (encode_transaction_data w3 id contract_abi fn_abi args kwargs w).1
       = Ok ("0x" +:+ hexlify encoded).
Proof.
  intros Hid sentinel.
  assert (Hrun :
    encode_transaction_data w3 id contract_abi fn_abi args kwargs w
    = (entry ← lift match fn_abi with Some e => Ok e | None => sentinel end;
       encoded ← encode_abi w3 entry [] (Some (encode_hex []));
       mret (add_0x_prefix encoded)) w).
  { subst sentinel. unfold encode_transaction_data,
      get_fallback_function_info, get_receive_function_info.
    unfold mbind at 1 4, M_bind, lift.
    destruct Hid as [-> | ->].
    - destruct fn_abi as [e|]; [reflexivity|].
      by destruct (get_fallback_func_abi contract_abi).
    - destruct fn_abi as [e|]; [reflexivity|].
      by destruct (get_receive_func_abi contract_abi). }
  split; [by destruct Hid as [-> | ->]|].
  split; [exact Hrun|].
  intros entry encoded Hres Hin He. rewrite Hrun, Hres.
  unfold mbind at 1, M_bind, lift. unfold mbind, M_bind.
  rewrite (encode_abi_encodable w3 entry [] [] [] encoded w).
  - reflexivity.
  - by apply check_encodable_no_inputs.
  - unfold get_abi_input_types. by rewrite Hin.
  - unfold get_abi_input_types. by rewrite Hin.
Qed.

End EncodingProperties.

(** ** The candidates of the function lookup *)

Lemma find_matching_fn_abi_name_ok (abi : ABI) (c : ABICodec) (name : string)
    (args : option (list pyval)) (kwargs : option (gmap string pyval))
    (e : ABIElement) :
  find_matching_fn_abi (Some abi) c (FnName name) args kwargs = Ok e ->
  filter_by_encodability c (default [] args) (default ∅ kwargs)
    (filter_by_argument_count
       (length (default [] args) + size (default ∅ kwargs))
       (filter_by_name name abi)) = [e].
Proof.
  unfold find_matching_fn_abi. cbn [iter_abi mbind result_bind pipe foldl].
  destruct (filter_by_encodability _ _ _ _) as [|e1 [|e2 rest]].
  2: by intros [= ->].
  all: repeat match goal with |- context [if ?b then _ else _] =>
         destruct b end; discriminate.
Qed.

(** ** The statements at concrete inputs *)

(** [g(1, b=True)]: the selector, then one word per argument. *)
Lemma encode_transaction_data_g :
  (@encode_transaction_data sample_collaborators sample_w3 (FnName "g")
     (Some sample_abi) None (Some [PInt 1])
     (Some {[ "b" := PBool true ]}) empty_world).1
  = Ok ("0x"
        +:+ hexlify
              (take 4 (sample_hash (list_byte_of_string "g(uint256,bool)"))
               ++ big_endian 32 1 ++ big_endian 32 1)).
Proof.
  apply (proj1 (@encode_transaction_data_layout sample_collaborators
                  sample_w3)
           "g" (Some sample_abi) None (Some [PInt 1])
           (Some {[ "b" := PBool true ]}) g_pair "g"
           [PInt 1; PBool true] [PInt 1; PBool true]);
    vm_compute; reflexivity.
Defined.

(** A non-zero value sent to [f], whose payable flag is false. *)
Lemma validate_payable_rejects_f :
  validate_payable (Some 1%positive) f_uint (world_with tx_value_5)
  = (Raise (ValidationError payable_violation_message),
     world_with tx_value_5).
Proof.
  apply (proj2 (@validate_payable_rule sample_collaborators f_uint
                  1%positive tx_value_5 (world_with tx_value_5) eq_refl)
           (PInt 5)); reflexivity.
Defined.

(** The same value sent to [h], which has no payable flag, passes. *)
Lemma payable_flag_absent_accepts_value :
  ~ (forall (entry : ABIElement) (l : loc) (tx : gmap string pyval)
            (w : world) (v : pyval),
       heap w !! l = Some tx -> tx !! "value" = Some v ->
       py_ne_zero v = true -> abi_payable entry <> Some true ->
       exists msg,
         (validate_payable (Some l) entry w).1
         = Raise (ValidationError msg)).
Proof.
  intros Hclaim.
  destruct (Hclaim h_modern 1%positive tx_value_5 (world_with tx_value_5)
              (PInt 5)) as [msg Hmsg]; try reflexivity; [discriminate|].
  vm_compute in Hmsg. discriminate.
Qed.

(** A base transaction with call data, sent to the payable [g]. *)
Lemma prepare_transaction_rejects_data :
  (@prepare_transaction sample_collaborators (Some "0x02") sample_w3
     (FnName "g") (Some sample_abi) (Some g_pair) (Some 1%positive)
     (Some [PInt 1; PBool true]) None (world_with tx_with_data)).1
  = Raise (ValueError data_conflict_message).
Proof.
  apply (@prepare_transaction_data_conflict sample_collaborators
           (Some "0x02") sample_w3 (FnName "g") (Some sample_abi)
           (Some g_pair) 1%positive tx_with_data g_pair
           (Some [PInt 1; PBool true]) None (world_with tx_with_data));
    [reflexivity | by eexists | reflexivity].
Defined.

(** With call data and a non-zero value, sent to [f]: the payable error
    comes first. *)
Lemma data_conflict_masked_by_payable :
  ~ (forall (address : option string) (w3 : Web3) (id : fn_id)
            (contract_abi : option ABI) (fn_abi : option ABIElement)
            (l : loc) (tx : gmap string pyval) (entry : ABIElement)
            (args : option (list pyval))
            (kwargs : option (gmap string pyval)) (w : world),
       heap w !! l = Some tx ->
       is_Some (tx !! "data") ->
       match fn_abi with
       | Some e => Ok e
       | None => find_matching_fn_abi contract_abi (codec w3) id args kwargs
       end = Ok entry ->
       (@prepare_transaction sample_collaborators address w3 id
          contract_abi fn_abi (Some l) args kwargs w).1
       = Raise (ValueError data_conflict_message)).
Proof.
  intros Hclaim.
  specialize (Hclaim (Some "0x02") sample_w3 (FnName "f") (Some sample_abi)
                (Some f_uint) 1%positive tx_with_data_and_value f_uint
                (Some [PInt 1]) None (world_with tx_with_data_and_value)
                eq_refl).
  assert (Hdata : is_Some (tx_with_data_and_value !! "data")) by by eexists.
  specialize (Hclaim Hdata eq_refl).
  vm_compute in Hclaim. discriminate.
Qed.

(** The call [g(1, True)] without a base transaction. *)
Example prepare_transaction_none_g :
  @prepare_transaction sample_collaborators (Some "0x02") sample_w3
    (FnName "g") (Some sample_abi) None None (Some [PInt 1; PBool true])
    None empty_world
  = (Raise (TypeError "argument of type 'NoneType' is not iterable"),
     empty_world).
Proof. vm_compute. reflexivity. Qed.

(** The caller's dictionary after a successful call, and the destination
    the caller supplied in the request. *)
Lemma prepare_transaction_keeps_caller :
  let r := @prepare_transaction sample_collaborators (Some "0x02") sample_w3
             (FnName "g") (Some sample_abi) None (Some 1%positive)
             (Some [PInt 1; PBool true]) None
             (world_with tx_with_destination) in
  heap r.2 !! 1%positive = Some tx_with_destination
  /\ r.1 = Ok 2%positive
  /\ (heap r.2 !! 2%positive) ≫= (fun d => d !! "to") = Some (PStr "0x01").
Proof.
  intros r. split.
  - apply (proj1 (@prepare_transaction_frame sample_collaborators
                    (Some "0x02") sample_w3 (FnName "g") (Some sample_abi)
                    None 1%positive tx_with_destination
                    (Some [PInt 1; PBool true]) None
                    (world_with tx_with_destination) eq_refl)).
    reflexivity.
  - split; vm_compute; reflexivity.
Defined.

(** The fallback call with an argument the fallback entry has no place
    for. *)
Lemma fallback_call_ignores_arguments :
  find_matching_fn_abi (Some sample_abi) sample_codec FallbackFn
    (Some [PInt 1]) None = Ok fallback_entry
  /\ (@encode_transaction_data sample_collaborators sample_w3 FallbackFn
        (Some sample_abi) None (Some [PInt 1]) None empty_world).1
     = Ok "0x".
Proof.
  pose proof (@sentinel_arguments_ignored sample_collaborators sample_w3
                FallbackFn (Some sample_abi) None (Some [PInt 1]) None
                empty_world (or_introl eq_refl)) as (Hfind & _ & Henc).
  split; [exact Hfind|].
  apply (Henc fallback_entry []); reflexivity.
Defined.

(** * Further properties of the resolvers *)

(** The converse of [find_matching_fn_abi_name_ok]. *)
Lemma find_matching_fn_abi_name_single (abi : ABI) (c : ABICodec)
    (name : string) (args : option (list pyval))
    (kwargs : option (gmap string pyval)) (e : ABIElement) :
  filter_by_encodability c (default [] args) (default ∅ kwargs)
    (filter_by_argument_count
       (length (default [] args) + size (default ∅ kwargs))
       (filter_by_name name abi)) = [e] ->
  find_matching_fn_abi (Some abi) c (FnName name) args kwargs = Ok e.
Proof.
  intros Hs. unfold find_matching_fn_abi.
  cbn [iter_abi mbind result_bind pipe foldl]. by rewrite Hs.
Qed.

Lemma candidates_Permutation (abi abi' : ABI) (c : ABICodec) (name : string)
    (n : nat) (args : list pyval) (kwargs : gmap string pyval) :
  abi ≡ₚ abi' ->
  filter_by_encodability c args kwargs
    (filter_by_argument_count n (filter_by_name name abi))
  ≡ₚ filter_by_encodability c args kwargs
       (filter_by_argument_count n (filter_by_name name abi')).
Proof.
  intros Hp. unfold filter_by_encodability, filter_by_argument_count,
    filter_by_name. by rewrite Hp.
Qed.

(** X1: the entry a lookup by name returns is an entry of the ABI that has
    the requested name, as many inputs as arguments were passed (positional
    and named together), and types the arguments can be encoded to. *)
Theorem find_matching_fn_abi_sound (abi : ABI) (c : ABICodec) (name : string)
    (args : option (list pyval)) (kwargs : option (gmap string pyval))
    (e : ABIElement) :
  find_matching_fn_abi (Some abi) c (FnName name) args kwargs = Ok e ->
  e ∈ abi
  /\ abi_name e = Some name
  /\ length (abi_inputs e)
     = (length (default [] args) + size (default ∅ kwargs))%nat
  /\ check_if_arguments_can_be_encoded e c (default [] args)
       (default ∅ kwargs) = true.
Proof.
  intros Hok%find_matching_fn_abi_name_ok.
  assert (He : e ∈ [e]) by apply list_elem_of_here.
  rewrite <- Hok in He.
  unfold filter_by_encodability, filter_by_argument_count, filter_by_name
    in He.
  rewrite !list_elem_of_filter in He. tauto.
Qed.

Lemma find_matching_fn_abi_sound_f :
  f_int ∈ sample_abi
  /\ abi_name f_int = Some "f"
  /\ length (abi_inputs f_int) = (1 + 0)%nat
  /\ check_if_arguments_can_be_encoded f_int sample_codec [PInt (-1)] ∅
     = true.
Proof.
  apply (find_matching_fn_abi_sound sample_abi sample_codec "f"
           (Some [PInt (-1)]) None f_int).
  vm_compute. reflexivity.
Defined.

(** X2: the entry a lookup by name selects does not depend on the order of
    the entries in the ABI: on a reordered ABI the lookup succeeds in the
    same cases and with the same entry. *)
Theorem find_matching_fn_abi_permutation (abi abi' : ABI) (c : ABICodec)
    (name : string) (args : option (list pyval))
    (kwargs : option (gmap string pyval)) (e : ABIElement) :
  abi ≡ₚ abi' ->
  find_matching_fn_abi (Some abi) c (FnName name) args kwargs = Ok e
  <-> find_matching_fn_abi (Some abi') c (FnName name) args kwargs = Ok e.
Proof.
  assert (Hdir : forall l l' : ABI, l ≡ₚ l' ->
    find_matching_fn_abi (Some l) c (FnName name) args kwargs = Ok e ->
    find_matching_fn_abi (Some l') c (FnName name) args kwargs = Ok e).
  { intros l l' Hp Hok%find_matching_fn_abi_name_ok.
    apply find_matching_fn_abi_name_single.
    apply Permutation_singleton_r. rewrite <- Hok.
    symmetry. by apply candidates_Permutation. }
  intros Hp. split; apply Hdir; [done | by symmetry].
Qed.

Lemma find_matching_fn_abi_reversed :
  find_matching_fn_abi (Some sample_abi) sample_codec (FnName "f")
    (Some [PInt (-1)]) None = Ok f_int
  <-> find_matching_fn_abi (Some (reverse sample_abi)) sample_codec
        (FnName "f") (Some [PInt (-1)]) None = Ok f_int.
Proof.
  apply (find_matching_fn_abi_permutation sample_abi (reverse sample_abi)).
  symmetry. apply reverse_Permutation.
Defined.

(** The candidates of an event lookup. *)
Lemma find_matching_event_abi_single (abi : ABI) (event_name : option string)
    (argument_names : option (list string)) (e : ABIElement) :
  find_matching_event_abi abi event_name argument_names = Ok e
  <-> match argument_names with
      | Some names => filter_by_argument_name names
      | None => fun l => l
      end
        (match event_name with
         | Some name => filter_by_name name
         | None => fun l => l
         end (filter_by_type KEvent abi)) = [e].
Proof.
  unfold find_matching_event_abi.
  destruct event_name as [name|], argument_names as [names|];
    cbn [app pipe foldl];
    match goal with |- context [match ?l with _ => _ end] =>
      destruct l as [|e1 [|e2 rest]] end;
    split; try discriminate; by intros [= ->].
Qed.

(** X3: the event a lookup selects does not depend on the order of the
    entries in the ABI either. *)
Theorem find_matching_event_abi_permutation (abi abi' : ABI)
    (event_name : option string) (argument_names : option (list string))
    (e : ABIElement) :
  abi ≡ₚ abi' ->
  find_matching_event_abi abi event_name argument_names = Ok e
  <-> find_matching_event_abi abi' event_name argument_names = Ok e.
Proof.
  intros Hp. rewrite !find_matching_event_abi_single.
  rewrite <- !Permutation_singleton_r.
  assert (Hc :
    match argument_names with
    | Some names => filter_by_argument_name names
    | None => fun l => l
    end
      (match event_name with
       | Some name => filter_by_name name
       | None => fun l => l
       end (filter_by_type KEvent abi))
    ≡ₚ match argument_names with
       | Some names => filter_by_argument_name names
       | None => fun l => l
       end
         (match event_name with
          | Some name => filter_by_name name
          | None => fun l => l
          end (filter_by_type KEvent abi'))).
  { unfold filter_by_argument_name, filter_by_name, filter_by_type.
    destruct event_name, argument_names; by rewrite Hp. }
  by rewrite Hc.
Qed.

Lemma find_matching_event_abi_reversed :
  find_matching_event_abi sample_abi (Some "Transfer") (Some ["to"])
  = Ok transfer_event
  <-> find_matching_event_abi (reverse sample_abi) (Some "Transfer")
        (Some ["to"]) = Ok transfer_event.
Proof.
  apply (find_matching_event_abi_permutation sample_abi
           (reverse sample_abi)).
  symmetry. apply reverse_Permutation.
Defined.

(** * Further properties of the encoder and the assembler *)

Section MoreEncodingProperties.
Context `{Collaborators}.

(** The state after the two calls [encode_abi] makes to its collaborators. *)
Lemma encode_abi_run (w3 : Web3) (abi : ABIElement)
    (arguments normalized : list pyval) (encoded : list byte)
    (data : option string) (w : world) :
  let types := get_abi_input_types abi in
  check_if_arguments_can_be_encoded abi (codec w3) arguments ∅ = true ->
  map_abi_data
    [abi_ens_resolver w3; abi_address_to_hex; abi_bytes_to_bytes;
     abi_string_to_text] types arguments = Returned normalized ->
  codec_encode_abi (codec w3) types normalized = Returned encoded ->
  encode_abi w3 abi arguments data w
  = (match data with
     | Some (String _ _ as data) =>
         prefix ← HexBytes data; Ok (encode_hex (prefix ++ encoded)%list)
     | _ => Ok (encode_hex encoded)
     end,
     {| heap := heap w;
        calls := calls w ++ [CallNormalize types arguments;
                             CallEncode types normalized] |}).
Proof.
  intros types Hc Hn He. unfold encode_abi. fold types.
  rewrite Hc. cbn [negb].
  unfold mbind at 1 2 3 4, M_bind, log_call, lift. cbn [heap calls].
  rewrite Hn. cbn [from_external]. rewrite He. cbn [from_external].
  rewrite <- app_assoc. cbn [app].
  destruct data as [[|ch rest]|]; try reflexivity.
  unfold mbind, M_bind, lift, to_hex.
  by destruct (HexBytes (String ch rest)).
Qed.

(** What a returning call of [encode_abi] has done. *)
Lemma encode_abi_inv (w3 : Web3) (abi : ABIElement) (arguments : list pyval)
    (data : option string) (w w' : world) (s : string) :
  let types := get_abi_input_types abi in
  encode_abi w3 abi arguments data w = (Ok s, w') ->
  check_if_arguments_can_be_encoded abi (codec w3) arguments ∅ = true
  /\ exists normalized encoded prefix,
       map_abi_data
         [abi_ens_resolver w3; abi_address_to_hex; abi_bytes_to_bytes;
          abi_string_to_text] types arguments = Returned normalized
       /\ codec_encode_abi (codec w3) types normalized = Returned encoded
       /\ match data with
          | Some (String _ _ as data) => HexBytes data = Ok prefix
          | _ => prefix = []
          end
       /\ s = encode_hex (prefix ++ encoded)%list
       /\ w' = {| heap := heap w;
                  calls := calls w ++ [CallNormalize types arguments;
                                       CallEncode types normalized] |}.
Proof.
  intros types Hrun.
  destruct (check_if_arguments_can_be_encoded abi (codec w3) arguments ∅)
    eqn:Hc.
  2: { by rewrite (encode_abi_not_encodable _ _ _ _ _ Hc) in Hrun. }
  split; [done|].
  destruct (map_abi_data
              [abi_ens_resolver w3; abi_address_to_hex; abi_bytes_to_bytes;
               abi_string_to_text] types arguments)
    as [normalized|cls msg] eqn:Hn.
  2: { exfalso. revert Hrun. unfold encode_abi. fold types. rewrite Hc.
       cbn [negb]. unfold mbind at 1 2, M_bind, log_call, lift.
       by rewrite Hn. }
  destruct (codec_encode_abi (codec w3) types normalized)
    as [encoded|cls msg] eqn:He.
  2: { exfalso. revert Hrun. unfold encode_abi. fold types. rewrite Hc.
       cbn [negb]. unfold mbind at 1 2 3 4, M_bind, log_call, lift.
       rewrite Hn. cbn [from_external]. by rewrite He. }
  rewrite (encode_abi_run _ _ _ _ _ _ _ Hc Hn He) in Hrun.
  exists normalized, encoded.
  destruct data as [[|ch rest]|].
  - exists []. by injection Hrun as <- <-.
  - destruct (HexBytes (String ch rest)) as [prefix|] eqn:Hp;
      [|discriminate].
    exists prefix. by injection Hrun as <- <-.
  - exists []. by injection Hrun as <- <-.
Qed.

(** X4: what [encode_abi] returns is a [0x]-prefixed hex string that decodes
    to the bytes of the data prefix followed by the codec's encoding of the
    normalized arguments; prefixing it again changes nothing. *)
Theorem encode_abi_decodes (w3 : Web3) (abi : ABIElement)
    (arguments : list pyval) (data : option string) (w w' : world)
    (s : string) :
  let types := get_abi_input_types abi in
  encode_abi w3 abi arguments data w = (Ok s, w') ->
  add_0x_prefix s = s
  /\ exists normalized encoded prefix,
       map_abi_data
         [abi_ens_resolver w3; abi_address_to_hex; abi_bytes_to_bytes;
          abi_string_to_text] types arguments = Returned normalized
       /\ codec_encode_abi (codec w3) types normalized = Returned encoded
       /\ match data with
          | Some (String _ _ as data) => HexBytes data = Ok prefix
          | _ => prefix = []
          end
       /\ HexBytes s = Ok (prefix ++ encoded)%list.
Proof.
  intros types Hrun.
  destruct (encode_abi_inv _ _ _ _ _ _ _ Hrun)
    as (_ & normalized & encoded & prefix & Hn & He & Hp & -> & _).
  split; [apply add_0x_prefix_encode_hex|].
  exists normalized, encoded, prefix.
  repeat split; try done. apply HexBytes_encode_hex.
Qed.

(** X5: an absent data prefix, the empty string and the bare prefix [0x]
    give the same run of [encode_abi]. *)
Theorem encode_abi_empty_prefix (w3 : Web3) (abi : ABIElement)
    (arguments : list pyval) (w : world) :
  encode_abi w3 abi arguments (Some "") w = encode_abi w3 abi arguments None w
  /\ encode_abi w3 abi arguments (Some "0x") w
     = encode_abi w3 abi arguments None w.
Proof.
  split; [reflexivity|].
  unfold encode_abi.
  destruct (check_if_arguments_can_be_encoded _ _ _ _); [|reflexivity].
  cbn [negb]. unfold mbind at 1 2 3 4 6 7 8 9, M_bind, log_call, lift.
  destruct (map_abi_data _ _ _); cbn [from_external]; [|reflexivity].
  destruct (codec_encode_abi _ _ _); reflexivity.
Qed.

(** X6: the output of one call of [encode_abi], passed as data prefix to a
    second call, gives the hex form of the first call's bytes, its own
    prefix and the encoding of its arguments, followed by the encoding of
    the second call's arguments; the four calls to the collaborators are
    made in that order. *)
Theorem encode_abi_chained (w3 : Web3) (abi1 abi2 : ABIElement)
    (args1 args2 : list pyval) (data : option string) (w w1 w2 : world)
    (s1 s2 : string) :
  let normalizers :=
    [abi_ens_resolver w3; abi_address_to_hex; abi_bytes_to_bytes;
     abi_string_to_text] in
  let types1 := get_abi_input_types abi1 in
  let types2 := get_abi_input_types abi2 in
  encode_abi w3 abi1 args1 data w = (Ok s1, w1) ->
  encode_abi w3 abi2 args2 (Some s1) w1 = (Ok s2, w2) ->
  exists prefix normalized1 encoded1 normalized2 encoded2,
    match data with
    | Some (String _ _ as data) => HexBytes data = Ok prefix
    | _ => prefix = []
    end
    /\ map_abi_data normalizers types1 args1 = Returned normalized1
    /\ codec_encode_abi (codec w3) types1 normalized1 = Returned encoded1
    /\ map_abi_data normalizers types2 args2 = Returned normalized2
    /\ codec_encode_abi (codec w3) types2 normalized2 = Returned encoded2
    /\ s1 = encode_hex (prefix ++ encoded1)%list
    /\ s2 = encode_hex (prefix ++ encoded1 ++ encoded2)%list
    /\ calls w2
       = (calls w ++ [CallNormalize types1 args1;
                      CallEncode types1 normalized1;
                      CallNormalize types2 args2;
                      CallEncode types2 normalized2])%list.
Proof.
  intros normalizers types1 types2 Hrun1 Hrun2.
  destruct (encode_abi_inv _ _ _ _ _ _ _ Hrun1)
    as (_ & n1 & e1 & p1 & Hn1 & He1 & Hp1 & -> & ->).
  destruct (encode_abi_inv _ _ _ _ _ _ _ Hrun2)
    as (_ & n2 & e2 & p2 & Hn2 & He2 & Hp2 & -> & ->).
  change (encode_hex (p1 ++ e1)%list)
    with (String "0" (String "x" (hexlify (p1 ++ e1)%list))) in Hp2.
  change (String "0" (String "x" (hexlify (p1 ++ e1)%list)))
    with (encode_hex (p1 ++ e1)%list) in Hp2.
  rewrite HexBytes_encode_hex in Hp2. injection Hp2 as <-.
  exists p1, n1, e1, n2, e2. cbn [calls].
  repeat split; try done.
  - by rewrite <- app_assoc.
  - by rewrite <- app_assoc.
Qed.

(** X7: a data prefix that is not a hex string is only found out after the
    arguments have been normalized and encoded: the error of the decoding is
    raised with both calls to the collaborators made. *)
Theorem encode_abi_malformed_prefix (w3 : Web3) (abi : ABIElement)
    (arguments normalized : list pyval) (encoded : list byte)
    (data : string) (w : world) (e : exn) :
  let types := get_abi_input_types abi in
  check_if_arguments_can_be_encoded abi (codec w3) arguments ∅ = true ->
  map_abi_data
    [abi_ens_resolver w3; abi_address_to_hex; abi_bytes_to_bytes;
     abi_string_to_text] types arguments = Returned normalized ->
  codec_encode_abi (codec w3) types normalized = Returned encoded ->
  HexBytes data = Raise e ->
  encode_abi w3 abi arguments (Some data) w
  = (Raise e,
     {| heap := heap w;
        calls := calls w ++ [CallNormalize types arguments;
                             CallEncode types normalized] |}).
Proof.
  intros types Hc Hn He Hd.
  rewrite (encode_abi_run _ _ _ _ _ _ _ Hc Hn He).
  destruct data as [|ch rest]; [discriminate|]. by rewrite Hd.
Qed.

End MoreEncodingProperties.

Section AssemblyProperties.
Context `{Collaborators}.

Lemma merge_args_and_kwargs_length (e : ABIElement) (args : list pyval)
    (kwargs : gmap string pyval) (merged : list pyval) :
  merge_args_and_kwargs e args kwargs = Ok merged ->
  length merged = length (abi_inputs e).
Proof.
  intros Hm. pose proof (merge_args_and_kwargs_count _ _ _ _ Hm) as Hcount.
  revert Hm. unfold merge_args_and_kwargs, get_abi_input_names.
  destruct (negb _); [discriminate|].
  case_bool_decide as Hk.
  { intros [= <-]. subst kwargs. rewrite map_size_empty in Hcount. lia. }
  destruct (bool_decide (Exists _ _)); [discriminate|].
  destruct (negb _); [discriminate|].
  destruct (mapM _ _) as [named|] eqn:Hnamed; [|discriminate].
  intros [= <-]. apply length_mapM in Hnamed.
  rewrite length_drop, length_fmap in Hnamed.
  rewrite length_app. lia.
Qed.

(** The run of [encode_transaction_data] for a name identifier and a supplied
    entry. *)
Lemma encode_transaction_data_named_run (w3 : Web3) (name fname : string)
    (contract_abi : option ABI) (entry : ABIElement)
    (args : option (list pyval)) (kwargs : option (gmap string pyval))
    (arguments normalized : list pyval) (encoded : list byte) (w : world) :
  let types := get_abi_input_types entry in
  let selector :=
    take 4 (keccak (list_byte_of_string
              (remove_spaces
                 (fname +:+ "(" +:+ String.concat "," types +:+ ")")))) in
  abi_name entry = Some fname ->
  merge_args_and_kwargs entry (default [] args) (default ∅ kwargs)
    = Ok arguments ->
  check_if_arguments_can_be_encoded entry (codec w3) arguments ∅ = true ->
  map_abi_data
    [abi_ens_resolver w3; abi_address_to_hex; abi_bytes_to_bytes;
     abi_string_to_text] types arguments = Returned normalized ->
  codec_encode_abi (codec w3) types normalized = Returned encoded ->
  encode_transaction_data w3 (FnName name) contract_abi (Some entry) args
    kwargs w
  = (Ok ("0x" +:+ hexlify (selector ++ encoded)%list),
     {| heap := heap w;
        calls := calls w ++ [CallNormalize types arguments;
                             CallEncode types normalized] |}).
Proof.
  intros types selector Hname Hm Hc Hn He.
  unfold encode_transaction_data, get_function_info.
  cbn [mbind result_bind]. unfold function_abi_to_4byte_selector.
  rewrite Hname. cbn [mbind result_bind]. rewrite Hm.
  cbn [mbind result_bind get_aligned_abi_inputs].
  unfold mbind at 1, M_bind, lift. unfold mbind, M_bind.
  fold types. fold selector.
  by rewrite (encode_abi_encodable _ _ _ _ _ _ _ Hc Hn He).
Qed.

(** X8: a call whose entry was resolved from the ABI cannot fail the checks
    made after the resolution.  [get_function_info] returns the entry, the
    hex form of its selector (the first four bytes of the hash of the name
    and the parenthesized types) and the merged arguments; these pass the
    re-validation of [encode_abi]; and [encode_transaction_data] gives the
    call data when the normalizers and the codec return, and raises their
    exception when one of them fails: it raises nothing else. *)
Theorem resolved_call_encodes (w3 : Web3) (name : string)
    (contract_abi : option ABI) (args : option (list pyval))
    (kwargs : option (gmap string pyval)) (entry : ABIElement) (w : world) :
  let types := get_abi_input_types entry in
  let selector :=
    take 4 (keccak (list_byte_of_string
              (remove_spaces
                 (name +:+ "(" +:+ String.concat "," types +:+ ")")))) in
  let normalizers :=
    [abi_ens_resolver w3; abi_address_to_hex; abi_bytes_to_bytes;
     abi_string_to_text] in
  find_matching_fn_abi contract_abi (codec w3) (FnName name) args kwargs
    = Ok entry ->
  exists arguments,
    merge_args_and_kwargs entry (default [] args) (default ∅ kwargs)
      = Ok arguments
    /\ get_function_info name (codec w3) contract_abi None args kwargs
       = Ok (entry, encode_hex selector, arguments)
    /\ check_if_arguments_can_be_encoded entry (codec w3) arguments ∅ = true
    /\ (encode_transaction_data w3 (FnName name) contract_abi None args
          kwargs w).1
       = match map_abi_data normalizers types arguments with
         | Failed cls msg => Raise (External cls msg)
         | Returned normalized =>
             match codec_encode_abi (codec w3) types normalized with
             | Failed cls msg => Raise (External cls msg)
             | Returned encoded =>
                 Ok ("0x" +:+ hexlify (selector ++ encoded)%list)
             end
         end.
Proof.
  intros types selector normalizers Hres.
  destruct contract_abi as [abi|]; [|discriminate].
  destruct (find_matching_fn_abi_sound _ _ _ _ _ _ Hres)
    as (_ & Hname & _ & Hc).
  destruct (check_encodable_merged _ _ _ _ Hc) as (arguments & Hm & Hc').
  assert (Hinfo :
    get_function_info name (codec w3) (Some abi) None args kwargs
    = Ok (entry, encode_hex selector, arguments)).
  { unfold get_function_info. rewrite find_matching_fn_abi_defaults, Hres.
    cbn [mbind result_bind]. unfold function_abi_to_4byte_selector.
    rewrite Hname. cbn [mbind result_bind]. by rewrite Hm. }
  exists arguments. repeat split; try done.
  unfold encode_transaction_data. rewrite Hinfo.
  unfold mbind at 1, M_bind, lift. unfold mbind, M_bind.
  fold types normalizers.
  destruct (map_abi_data normalizers types arguments)
    as [normalized|cls msg] eqn:Hn.
  2: { unfold encode_abi. rewrite Hc'. cbn [negb].
       unfold mbind, M_bind, log_call, lift. fold types normalizers.
       by rewrite Hn. }
  destruct (codec_encode_abi (codec w3) types normalized)
    as [encoded|cls msg] eqn:He.
  2: { unfold encode_abi. rewrite Hc'. cbn [negb].
       unfold mbind, M_bind, log_call, lift. fold types normalizers.
       rewrite Hn. cbn [from_external]. fold types. by rewrite He. }
  by rewrite (encode_abi_encodable _ _ _ _ _ _ _ Hc' Hn He).
Qed.

(** X9: [prepare_transaction] validates before it encodes: when the payable
    validation fails or the base transaction already has call data, it
    raises without a call to the normalizers or to the codec. *)
Theorem prepare_transaction_validates_first (address : option string)
    (w3 : Web3) (id : fn_id) (contract_abi : option ABI)
    (fn_abi : option ABIElement) (l : loc) (tx : gmap string pyval)
    (entry : ABIElement) (args : option (list pyval))
    (kwargs : option (gmap string pyval)) (w : world) :
  heap w !! l = Some tx ->
  match fn_abi with
  | Some e => Ok e
  | None => find_matching_fn_abi contract_abi (codec w3) id args kwargs
  end = Ok entry ->
  match tx !! "value", abi_payable entry with
  | Some v, Some false => py_ne_zero v
  | _, _ => false
  end = true \/ is_Some (tx !! "data") ->
  let r := prepare_transaction address w3 id contract_abi fn_abi (Some l)
             args kwargs w in
  (exists e, r.1 = Raise e) /\ calls r.2 = calls w.
Proof.
  intros Hl Hres Hbad r. subst r.
  pose proof (validate_payable_run entry l tx w Hl) as Hv.
  destruct (match tx !! "value", abi_payable entry with
            | Some v, Some false => py_ne_zero v
            | _, _ => false
            end) eqn:Hviol.
  - assert (Hv' : validate_payable (Some l) entry w
                  = (Raise (ValidationError payable_violation_message), w)).
    { rewrite Hv. destruct (tx !! "value") as [v|]; [|discriminate].
      destruct (abi_payable entry) as [[|]|]; try discriminate.
      by rewrite Hviol. }
    rewrite (prepare_transaction_invalid _ _ _ _ _ _ entry _ _ _ _ _
               Hres Hv').
    split; [by eexists | done].
  - destruct Hbad as [|Hdata]; [discriminate|].
    assert (Hv' : validate_payable (Some l) entry w = (Ok tt, w)).
    { rewrite Hv. destruct (tx !! "value") as [v|]; [|done].
      destruct (abi_payable entry) as [[|]|]; try done. by rewrite Hviol. }
    rewrite (prepare_transaction_run _ _ _ _ _ _ _ _ _ _ _ Hl Hres Hv').
    rewrite bool_decide_eq_true_2 by done.
    split; [by eexists | done].
Qed.

(** X10: a call by name on a base transaction without call data that passes
    the payable validation, with arguments the collaborators accept,
    succeeds.  The request is a new dictionary: the caller's fields, the
    destination as [with_destination] sets it, and as call data the
    [0x]-prefixed hex form of the selector followed by the encoded
    arguments; the collaborators have been called once each. *)
Theorem prepare_transaction_success (address : option string) (w3 : Web3)
    (name : string) (contract_abi : option ABI) (l : loc)
    (tx : gmap string pyval) (entry : ABIElement)
    (args : option (list pyval)) (kwargs : option (gmap string pyval))
    (arguments normalized : list pyval) (encoded : list byte) (w : world) :
  let types := get_abi_input_types entry in
  let selector :=
    take 4 (keccak (list_byte_of_string
              (remove_spaces
                 (name +:+ "(" +:+ String.concat "," types +:+ ")")))) in
  let p := fresh (dom (heap w)) in
  heap w !! l = Some tx ->
  tx !! "data" = None ->
  match tx !! "value", abi_payable entry with
  | Some v, Some false => py_ne_zero v
  | _, _ => false
  end = false ->
  find_matching_fn_abi contract_abi (codec w3) (FnName name) args kwargs
    = Ok entry ->
  merge_args_and_kwargs entry (default [] args) (default ∅ kwargs)
    = Ok arguments ->
  map_abi_data
    [abi_ens_resolver w3; abi_address_to_hex; abi_bytes_to_bytes;
     abi_string_to_text] types arguments = Returned normalized ->
  codec_encode_abi (codec w3) types normalized = Returned encoded ->
  prepare_transaction address w3 (FnName name) contract_abi None (Some l)
    args kwargs w
  = (Ok p,
     {| heap :=
          <[p := <["data" := PStr ("0x" +:+ hexlify (selector ++ encoded)%list)]>
                   (with_destination address tx)]> (heap w);
        calls := calls w ++ [CallNormalize types arguments;
                             CallEncode types normalized] |}).
Proof.
  intros types selector p Hl Hdata Hviol Hres Hm Hn He.
  destruct contract_abi as [abi|]; [|discriminate].
  destruct (find_matching_fn_abi_sound _ _ _ _ _ _ Hres)
    as (_ & Hname & _ & Hc).
  destruct (check_encodable_merged _ _ _ _ Hc) as (merged & Hm' & Hc').
  rewrite Hm in Hm'. injection Hm' as <-.
  assert (Hv' : validate_payable (Some l) entry w = (Ok tt, w)).
  { rewrite (validate_payable_run entry l tx w Hl).
    destruct (tx !! "value") as [v|]; [|done].
    destruct (abi_payable entry) as [[|]|]; try done. by rewrite Hviol. }
  rewrite (prepare_transaction_run address w3 (FnName name) (Some abi) None
             l tx entry args kwargs w Hl Hres Hv').
  rewrite bool_decide_eq_false_2 by (rewrite Hdata; by intros [? ?]).
  cbv zeta.
  by rewrite (encode_transaction_data_named_run w3 name name (Some abi)
                entry args kwargs arguments normalized encoded _
                Hname Hm Hc' Hn He).
Qed.

(** X11: with a supplied entry, arguments passed by name give the same run of
    [encode_transaction_data] as the merged list passed positionally; the
    name in the identifier and the ABI are not looked at. *)
Theorem encode_transaction_data_named_positional (w3 : Web3)
    (name name' : string) (contract_abi contract_abi' : option ABI)
    (entry : ABIElement) (args : list pyval) (kwargs : gmap string pyval)
    (merged : list pyval) (w : world) :
  merge_args_and_kwargs entry args kwargs = Ok merged ->
  encode_transaction_data w3 (FnName name) contract_abi (Some entry)
    (Some args) (Some kwargs) w
  = encode_transaction_data w3 (FnName name') contract_abi' (Some entry)
      (Some merged) None w.
Proof.
  intros Hm.
  pose proof (merge_args_and_kwargs_length _ _ _ _ Hm) as Hlen.
  unfold encode_transaction_data, get_function_info.
  cbn [mbind result_bind default from_option].
  destruct (function_abi_to_4byte_selector entry) as [selector|];
    [|reflexivity].
  cbn [mbind result_bind].
  change (Datatypes.id ?x) with x.
  by rewrite Hm, (merge_args_no_kwargs entry merged Hlen).
Qed.

End AssemblyProperties.

(** ** The further properties at concrete inputs *)

(** The call data of [g(1, True)] without a prefix decodes to its two
    words. *)
Lemma encode_abi_decodes_g :
  let s := encode_hex (big_endian 32 1 ++ big_endian 32 1) in
  add_0x_prefix s = s.
Proof.
  intros s.
  apply (@encode_abi_decodes sample_collaborators sample_w3 g_pair
           [PInt 1; PBool true] None empty_world
           {| heap := ∅;
              calls := [CallNormalize ["uint256"; "bool"] [PInt 1; PBool true];
                        CallEncode ["uint256"; "bool"] [PInt 1; PBool true]] |}
           s).
  vm_compute. reflexivity.
Defined.

(** The output of [g(1, True)] as prefix of the encoding of [f(2)]. *)
Lemma encode_abi_chained_g_f :
  exists prefix normalized1 encoded1 normalized2 encoded2,
    prefix = []
    /\ @map_abi_data
         [identity_normalizer; identity_normalizer; identity_normalizer;
          identity_normalizer] ["uint256"; "bool"] [PInt 1; PBool true]
       = Returned normalized1
    /\ codec_encode_abi sample_codec ["uint256"; "bool"] normalized1
       = Returned encoded1
    /\ @map_abi_data
         [identity_normalizer; identity_normalizer; identity_normalizer;
          identity_normalizer] ["uint256"] [PInt 2] = Returned normalized2
    /\ codec_encode_abi sample_codec ["uint256"] normalized2
       = Returned encoded2
    /\ encode_hex (big_endian 32 1 ++ big_endian 32 1)
       = encode_hex (prefix ++ encoded1)
    /\ encode_hex ((big_endian 32 1 ++ big_endian 32 1) ++ big_endian 32 2)
       = encode_hex (prefix ++ encoded1 ++ encoded2)
    /\ [CallNormalize ["uint256"; "bool"] [PInt 1; PBool true];
        CallEncode ["uint256"; "bool"] [PInt 1; PBool true];
        CallNormalize ["uint256"] [PInt 2];
        CallEncode ["uint256"] [PInt 2]]
       = ([] ++ [CallNormalize ["uint256"; "bool"] [PInt 1; PBool true];
                 CallEncode ["uint256"; "bool"] normalized1;
                 CallNormalize ["uint256"] [PInt 2];
                 CallEncode ["uint256"] normalized2])%list.
Proof.
  apply (@encode_abi_chained sample_collaborators sample_w3 g_pair f_uint
           [PInt 1; PBool true] [PInt 2] None empty_world
           {| heap := ∅;
              calls := [CallNormalize ["uint256"; "bool"] [PInt 1; PBool true];
                        CallEncode ["uint256"; "bool"] [PInt 1; PBool true]] |}
           {| heap := ∅;
              calls := [CallNormalize ["uint256"; "bool"] [PInt 1; PBool true];
                        CallEncode ["uint256"; "bool"] [PInt 1; PBool true];
                        CallNormalize ["uint256"] [PInt 2];
                        CallEncode ["uint256"] [PInt 2]] |}
           (encode_hex (big_endian 32 1 ++ big_endian 32 1))
           (encode_hex ((big_endian 32 1 ++ big_endian 32 1)
                        ++ big_endian 32 2)));
    vm_compute; reflexivity.
Defined.

(** A prefix with the characters [zz] in it. *)
Lemma encode_abi_malformed_prefix_zz :
  @encode_abi sample_collaborators sample_w3 f_uint [PInt 2] (Some "0xzz")
    empty_world
  = (Raise (ValueError "Non-hexadecimal digit found"),
     {| heap := heap empty_world;
        calls := calls empty_world
                 ++ [CallNormalize (get_abi_input_types f_uint) [PInt 2];
                     CallEncode (get_abi_input_types f_uint) [PInt 2]] |}).
Proof.
  apply (@encode_abi_malformed_prefix sample_collaborators sample_w3 f_uint
           [PInt 2] [PInt 2] (big_endian 32 2) "0xzz" empty_world);
    vm_compute; reflexivity.
Defined.

(** The call [g(1, b=True)] resolved from the sample ABI. *)
Lemma resolved_call_encodes_g :
  exists arguments,
    merge_args_and_kwargs g_pair [PInt 1] {[ "b" := PBool true ]}
      = Ok arguments
    /\ @get_function_info sample_collaborators "g" sample_codec
         (Some sample_abi) None (Some [PInt 1])
         (Some {[ "b" := PBool true ]})
       = Ok (g_pair,
             encode_hex
               (take 4 (sample_hash (list_byte_of_string "g(uint256,bool)"))),
             arguments)
    /\ check_if_arguments_can_be_encoded g_pair sample_codec arguments ∅
       = true
    /\ (@encode_transaction_data sample_collaborators sample_w3
          (FnName "g") (Some sample_abi) None (Some [PInt 1])
          (Some {[ "b" := PBool true ]}) empty_world).1
       = Ok ("0x"
             +:+ hexlify
                   (take 4 (sample_hash
                              (list_byte_of_string "g(uint256,bool)"))
                    ++ big_endian 32 1 ++ big_endian 32 1)).
Proof.
  destruct (@resolved_call_encodes sample_collaborators sample_w3 "g"
              (Some sample_abi) (Some [PInt 1])
              (Some {[ "b" := PBool true ]}) g_pair empty_world)
    as (arguments & Hm & Hinfo & Hc & Henc);
    [vm_compute; reflexivity|].
  exists arguments. by repeat split.
Defined.

(** A base transaction with call data: no collaborator is called. *)
Lemma prepare_transaction_validates_first_g :
  calls (@prepare_transaction sample_collaborators (Some "0x02") sample_w3
           (FnName "g") (Some sample_abi) None (Some 1%positive)
           (Some [PInt 1; PBool true]) None (world_with tx_with_data)).2
  = calls (world_with tx_with_data).
Proof.
  apply (@prepare_transaction_validates_first sample_collaborators
           (Some "0x02") sample_w3 (FnName "g") (Some sample_abi) None
           1%positive tx_with_data g_pair (Some [PInt 1; PBool true]) None
           (world_with tx_with_data)).
  - reflexivity.
  - vm_compute. reflexivity.
  - right. by eexists.
Defined.

(** The request built for [g(1, True)] on a base transaction that names a
    destination. *)
Lemma prepare_transaction_success_g :
  (@prepare_transaction sample_collaborators (Some "0x02") sample_w3
     (FnName "g") (Some sample_abi) None (Some 1%positive)
     (Some [PInt 1; PBool true]) None (world_with tx_with_destination)).1
  = Ok (fresh (dom (heap (world_with tx_with_destination)))).
Proof.
  rewrite (@prepare_transaction_success sample_collaborators (Some "0x02")
             sample_w3 "g" (Some sample_abi) 1%positive tx_with_destination
             g_pair (Some [PInt 1; PBool true]) None [PInt 1; PBool true]
             [PInt 1; PBool true] (big_endian 32 1 ++ big_endian 32 1)
             (world_with tx_with_destination));
    vm_compute; reflexivity.
Defined.

(** [g(1, b=True)] and [g(1, True)]. *)
Lemma encode_transaction_data_named_positional_g :
  @encode_transaction_data sample_collaborators sample_w3 (FnName "g")
    (Some sample_abi) (Some g_pair) (Some [PInt 1])
    (Some {[ "b" := PBool true ]}) empty_world
  = @encode_transaction_data sample_collaborators sample_w3 (FnName "g")
      (Some sample_abi) (Some g_pair) (Some [PInt 1; PBool true]) None
      empty_world.
Proof.
  apply (@encode_transaction_data_named_positional sample_collaborators
           sample_w3 "g" "g" (Some sample_abi) (Some sample_abi) g_pair
           [PInt 1] {[ "b" := PBool true ]} [PInt 1; PBool true] empty_world).
  vm_compute. reflexivity.
Defined.

(** X12: the payable validation compares the value with the integer zero as
    it stands: a value given as text or as bytes, whatever it spells, counts
    as non-zero and is refused by an entry whose payable flag is false. *)
Theorem validate_payable_untyped_value (entry : ABIElement) (l : loc)
    (tx : gmap string pyval) (v : pyval) (w : world) :
  heap w !! l = Some tx ->
  tx !! "value" = Some v ->
  (exists s, v = PStr s) \/ (exists bs, v = PBytes bs) ->
  abi_payable entry = Some false ->
  validate_payable (Some l) entry w
  = (Raise (ValidationError payable_violation_message), w).
Proof.
  intros Hl Hv Hty Hp. unfold validate_payable.
  unfold mbind, M_bind, py_dict_read. rewrite Hl.
  cbv beta iota delta [default from_option Datatypes.id].
  rewrite Hv, Hp. by destruct Hty as [[s ->] | [bs ->]].
Qed.

(** The value ["0x0"] sent to [f]. *)
Lemma validate_payable_untyped_value_f :
  validate_payable (Some 1%positive) f_uint
    (world_with {[ "value" := PStr "0x0" ]})
  = (Raise (ValidationError payable_violation_message),
     world_with {[ "value" := PStr "0x0" ]}).
Proof.
  apply (validate_payable_untyped_value f_uint 1%positive
           {[ "value" := PStr "0x0" ]} (PStr "0x0")
           (world_with {[ "value" := PStr "0x0" ]}));
    [reflexivity | reflexivity | left; by eexists | reflexivity].
Defined.
